(** * The image classifier of vision-backbones: a shallow embedding

    This development embeds [src/classifier.py] (class [ImageClassifier]):
    its constructor, the parameter grouping and the learning-rate schedule of
    [configure_optimizers], and the training and validation steps.

    Conventions.
    - A Python [int] is a [Z]; a Python [float] is an exact rational [Q]
      (rounding is not modelled); a float that is the outcome of a tensor
      division is an [fval], which adds the not-a-number and infinite
      outcomes of a division by zero.
    - A [dict] used as a registry is a [gmap string _].
    - A raised exception is the left summand of a result.
    - What torch, torchvision and pytorch-lightning do is outside [src/]; the
      few library functions the code calls are given the behaviour their
      documentation states, each in a definition that says so. *)

From Stdlib Require Import ZArith QArith List Permutation Lia Bool.
From stdpp Require Import gmap strings.
Import ListNotations.

#[local] Set Warnings "-register-all".
Close Scope Q_scope.
Local Open Scope Z_scope.

(** ** Module trees *)

Module Tree.

(** An [nn.Parameter] tensor. [pid] stands for the identity of the tensor object,
    [requires_grad] is its gradient-tracking flag. *)
Record Param : Type := mkParam {
  pid : nat;
  requires_grad : bool
}.

(** An [nn.Module] as [configure_optimizers] sees it:
    - [is_norm]: the answer of [isinstance(module, norm_classes)] on this
      very object, where [norm_classes] is
      [(_BatchNorm, nn.LayerNorm, nn.GroupNorm)];
    - [_parameters]: the tensors registered on the module itself;
    - [_modules]: its child modules, in registration order.
    The module objects of a tree are distinct objects, and so are the tensors
    of the trees the statements below call well-formed ([NoDup] of
    [parameters]); torch's iterators skip an object they have already
    yielded, which is vacuous on such trees and is not reproduced here. *)
Inductive Module : Type :=
  mkModule (is_norm : bool) (_parameters : list Param) (_modules : list Module).

Definition is_norm (m : Module) : bool :=
  match m with mkModule b _ _ => b end.

Definition _parameters (m : Module) : list Param :=
  match m with mkModule _ ps _ => ps end.

(** [module.children()] *)
Definition children (m : Module) : list Module :=
  match m with mkModule _ _ cs => cs end.

(** [self.modules()]: the module itself, then the modules of each child,
    depth first in registration order. *)
Fixpoint modules (m : Module) : list Module :=
  match m with
  | mkModule _ _ cs => m :: flat_map modules cs
  end.

(** [module.parameters(recurse=False)] *)
Definition parameters_norecurse (m : Module) : list Param := _parameters m.

(** [module.parameters()]: the tensors of the module and of all the modules
    below it, in the order of [modules]. *)
Fixpoint parameters (m : Module) : list Param :=
  match m with
  | mkModule _ ps cs => ps ++ flat_map parameters cs
  end.

(** [next(module.children(), None)] is the first child, or [None]. *)
Definition next_child (m : Module) : option Module := head (children m).

(** The truth value of [next(module.children(), None)], the test of line 144.
    [None] is false and a module object is true: every module below the
    classifier is a scripted module ([torch.jit.script] in the constructor),
    and a scripted module is a true value whatever it contains. So the test
    holds exactly when the module has a child. *)
Definition has_child (m : Module) : bool :=
  match next_child m with
  | Some _ => true
  | None => false
  end.

(** [p for p in ps if p.requires_grad] *)
Definition trainable (ps : list Param) : list Param :=
  List.filter requires_grad ps.

(** One turn of the loop of [configure_optimizers] (lines 143-149): the two
    lists are extended in place. *)
Definition split_step (acc : list Param * list Param) (module : Module)
  : list Param * list Param :=
  let '(norm_params, other_params) := acc in
  if has_child module then
    (norm_params, other_params ++ trainable (parameters_norecurse module))
  else if is_norm module then
    (norm_params ++ trainable (parameters module), other_params)
  else
    (norm_params, other_params ++ trainable (parameters module)).

(** Lines 141-149: [(norm_params, other_params)] after the loop over
    [self.modules()]. *)
Definition split_normalization_params (root : Module)
  : list Param * list Param :=
  fold_left split_step (modules root) ([], []).

Definition norm_params (root : Module) : list Param :=
  fst (split_normalization_params root).

(** [torch.jit.script(module)]: the scripted module has the children (each
    scripted in turn) and the tensors of the module it is made from, and it
    is an object of torch's own script class, so that
    [isinstance(_, norm_classes)] is [False] on it and on every module below
    it. That the compilation can fail is not modelled. *)
Fixpoint script (m : Module) : Module :=
  match m with
  | mkModule _ ps cs => mkModule false ps (map script cs)
  end.

Definition other_params (root : Module) : list Param :=
  snd (split_normalization_params root).

(** *** What the statements about grouping refer to *)

(** A leaf module is a module without children. *)
Definition is_leaf (m : Module) : bool :=
  match children m with
  | [] => true
  | _ :: _ => false
  end.

(** The leaf normalization modules of a tree, in traversal order. *)
Definition norm_leaves (root : Module) : list Module :=
  List.filter (fun m => is_leaf m && is_norm m) (modules root).

(** What one turn of the loop adds to each list. *)
Definition norm_part (m : Module) : list Param :=
  if has_child m then []
  else if is_norm m then trainable (parameters m) else [].

Definition other_part (m : Module) : list Param :=
  if has_child m then trainable (parameters_norecurse m)
  else if is_norm m then [] else trainable (parameters m).

End Tree.

(** ** Exceptions and results *)

(** The exceptions the embedded code can raise: [KeyError] for a failed
    [dict] lookup, [IndexError] for [l[-1]] on an empty list and for an
    [argmax] over an empty dimension, [ValueError] and [RuntimeError] for an
    argument a constructor of torch or torchvision refuses. *)
Inductive exn : Type :=
| KeyError (key : string)
| IndexError
| ValueError
| RuntimeError.

Definition result (A : Type) : Type := (exn + A)%type.

Definition ok {A : Type} (a : A) : result A := inr a.
Definition raise {A : Type} (e : exn) : result A := inl e.

Definition bind {A B : Type} (r : result A) (k : A -> result B) : result B :=
  match r with
  | inl e => inl e
  | inr a => k a
  end.

Declare Scope result_scope.
Delimit Scope result_scope with result.
Notation "'let*' x ':=' r 'in' k" := (bind r (fun x => k))
  (at level 10, x name, r at level 100, k at level 200) : result_scope.

(** ** Hyper-parameters *)

Module hparams.

(** The module tree and the declared channels of a backbone object.
    [get_out_channels] is the list the method of that name returns; [body] is
    the module tree of the object itself, before it is scripted. *)
Record Backbone : Type := mkBackbone {
  get_out_channels : list Z;
  body : Tree.Module
}.

(** The arguments of [ImageClassifier.__init__]. [save_hyperparameters()]
    stores as [self.hparams] the values the argument names have when it is
    called. *)
Record t : Type := mk {
  (* model *)
  backbone : string + Backbone;
  num_classes : Z;
  (* data *)
  train_dir : string;
  val_dir : string;
  batch_size : Z;
  num_workers : Z;
  train_crop_size : Z;
  val_resize_size : Z;
  val_crop_size : Z;
  (* augmentation *)
  random_erasing_p : Q;
  mixup_alpha : Q;
  cutmix_alpha : Q;
  (* optimizer and scheduler *)
  optimizer : string;
  lr : Q;
  weight_decay : Q;
  norm_weight_decay : option Q;
  label_smoothing : Q;
  warmup_epochs : Z;
  warmup_decay : Q
}.

(** The defaults of the signature, for the four arguments without one. *)
Definition defaults (backbone : string + Backbone) (num_classes : Z)
    (train_dir val_dir : string) : t :=
  {| backbone := backbone; num_classes := num_classes;
     train_dir := train_dir; val_dir := val_dir;
     batch_size := 128; num_workers := 4; train_crop_size := 176;
     val_resize_size := 232; val_crop_size := 224;
     random_erasing_p := (1 # 10)%Q; mixup_alpha := (2 # 10)%Q;
     cutmix_alpha := 1%Q;
     optimizer := "SGD"; lr := (5 # 100)%Q; weight_decay := (2 # 100000)%Q;
     norm_weight_decay := Some 0%Q; label_smoothing := (1 # 10)%Q;
     warmup_epochs := 5; warmup_decay := (1 # 100)%Q |}.

(** The configuration with [backbone] replaced. *)
Definition with_backbone (b : string + Backbone) (hp : t) : t :=
  {| backbone := b; num_classes := num_classes hp;
     train_dir := train_dir hp; val_dir := val_dir hp;
     batch_size := batch_size hp; num_workers := num_workers hp;
     train_crop_size := train_crop_size hp;
     val_resize_size := val_resize_size hp; val_crop_size := val_crop_size hp;
     random_erasing_p := random_erasing_p hp; mixup_alpha := mixup_alpha hp;
     cutmix_alpha := cutmix_alpha hp;
     optimizer := optimizer hp; lr := lr hp; weight_decay := weight_decay hp;
     norm_weight_decay := norm_weight_decay hp;
     label_smoothing := label_smoothing hp;
     warmup_epochs := warmup_epochs hp; warmup_decay := warmup_decay hp |}.

Definition with_warmup_epochs (w : Z) (hp : t) : t :=
  {| backbone := backbone hp; num_classes := num_classes hp;
     train_dir := train_dir hp; val_dir := val_dir hp;
     batch_size := batch_size hp; num_workers := num_workers hp;
     train_crop_size := train_crop_size hp;
     val_resize_size := val_resize_size hp; val_crop_size := val_crop_size hp;
     random_erasing_p := random_erasing_p hp; mixup_alpha := mixup_alpha hp;
     cutmix_alpha := cutmix_alpha hp;
     optimizer := optimizer hp; lr := lr hp; weight_decay := weight_decay hp;
     norm_weight_decay := norm_weight_decay hp;
     label_smoothing := label_smoothing hp;
     warmup_epochs := w; warmup_decay := warmup_decay hp |}.

Definition with_label_smoothing (s : Q) (hp : t) : t :=
  {| backbone := backbone hp; num_classes := num_classes hp;
     train_dir := train_dir hp; val_dir := val_dir hp;
     batch_size := batch_size hp; num_workers := num_workers hp;
     train_crop_size := train_crop_size hp;
     val_resize_size := val_resize_size hp; val_crop_size := val_crop_size hp;
     random_erasing_p := random_erasing_p hp; mixup_alpha := mixup_alpha hp;
     cutmix_alpha := cutmix_alpha hp;
     optimizer := optimizer hp; lr := lr hp; weight_decay := weight_decay hp;
     norm_weight_decay := norm_weight_decay hp;
     label_smoothing := s;
     warmup_epochs := warmup_epochs hp; warmup_decay := warmup_decay hp |}.

End hparams.

(** ** Learning-rate schedulers *)

Module Schedule.

(** A scheduler of [torch.optim.lr_scheduler], represented by the call that
    builds it. All schedulers of one configuration are bound to the same
    optimizer, which is left out. *)
Inductive LRScheduler : Type :=
| CosineAnnealingLR (T_max : Z)
| LinearLR (start_factor : Q) (total_iters : Z)
| SequentialLR (schedulers : list LRScheduler) (milestones : list Z).

(** [bisect.bisect_right(a, x)] on an ascending list: the number of leading
    items that are at most [x]. *)
Fixpoint bisect_right (a : list Z) (x : Z) : nat :=
  match a with
  | [] => O
  | m :: a' => if x <? m then O else S (bisect_right a' x)
  end.

(** [SequentialLR.step], as torch documents it: at epoch [epoch] the
    scheduler at index [bisect_right(milestones, epoch)] is the one stepped;
    it is restarted at its own epoch 0 when [epoch] reaches the milestone
    before it. The result is that scheduler and its own epoch count. *)
Definition SequentialLR_phase (schedulers : list LRScheduler)
    (milestones : list Z) (epoch : Z) : option (LRScheduler * Z) :=
  let idx := bisect_right milestones epoch in
  match nth_error schedulers idx with
  | Some s =>
      Some (s, match idx with
               | O => epoch
               | S i => epoch - nth i milestones 0
               end)
  | None => None
  end.

(** The scheduler that governs epoch [epoch], with its own epoch count. *)
Definition governing (s : LRScheduler) (epoch : Z) : option (LRScheduler * Z) :=
  match s with
  | SequentialLR schedulers milestones =>
      SequentialLR_phase schedulers milestones epoch
  | _ => Some (s, epoch)
  end.

(** The closed form of [LinearLR] with the default [end_factor] of 1: the
    multiplier of the base learning rate at the scheduler's epoch [epoch]. *)
Definition LinearLR_factor (start_factor : Q) (total_iters epoch : Z) : Q :=
  (start_factor
   + (1 - start_factor)
     * (inject_Z (Z.min total_iters epoch) / inject_Z total_iters))%Q.

Section Multiplier.

(** The closed form of [CosineAnnealingLR] with the default [eta_min] of 0,
    [(1 + cos(pi * epoch / T_max)) / 2], as a function of [T_max] and
    [epoch]. Its values are not rational; the function is a parameter. *)
Variable CosineAnnealingLR_factor : Z -> Z -> Q.

(** The multiplier the closed form of the governing scheduler gives at
    epoch [epoch]. *)
Definition lr_multiplier (s : LRScheduler) (epoch : Z) : option Q :=
  match governing s epoch with
  | Some (CosineAnnealingLR T_max, e) => Some (CosineAnnealingLR_factor T_max e)
  | Some (LinearLR start_factor total_iters, e) =>
      Some (LinearLR_factor start_factor total_iters e)
  | _ => None
  end.

(** The multipliers of the first [n] epochs. *)
Definition trajectory (s : LRScheduler) (n : nat) : list (option Q) :=
  map (fun e => lr_multiplier s (Z.of_nat e)) (seq 0 n).

End Multiplier.

End Schedule.

(** ** The classifier object *)

Module Classifier.
Import Tree.

(** The members of [train_transforms]. *)
Inductive Transform : Type :=
| RandomHorizontalFlip
| TrivialAugmentWide
| ConvertImageDtype
| Normalize
| RandomErasing (p : Q).

(** [extras.RandomCutMixMixUp(num_classes, cutmix_alpha, mixup_alpha)]: the
    object keeps the arguments it was built with, in that order. *)
Record RandomCutMixMixUp : Type := mkRandomCutMixMixUp {
  rcm_num_classes : Z;
  rcm_cutmix_alpha : Q;
  rcm_mixup_alpha : Q
}.

(** The attributes [__init__] sets on [self]. *)
Record ImageClassifier : Type := mkImageClassifier {
  hparams_ : hparams.t;
  backbone : Module;
  classifier : Module;
  train_transforms : list Transform;
  mixup_cutmix : option RandomCutMixMixUp
}.

(** The object with [hparams] replaced. *)
Definition set_hparams (hp : hparams.t) (self : ImageClassifier) : ImageClassifier :=
  {| hparams_ := hp;
     backbone := backbone self;
     classifier := classifier self;
     train_transforms := train_transforms self;
     mixup_cutmix := mixup_cutmix self |}.

(** A module that holds no tensor and has no child (a pooling, flattening or
    transform module). *)
Definition plain_leaf : Module := mkModule false [] [].

(** [nn.Sequential] applied to the modules [ms]. *)
Definition Sequential (ms : list Module) : Module := mkModule false [] ms.

Section Construction.

(** [backbones.__dict__], the name space of the package [backbones], which
    is the registry of constructors: each identifier is bound to the backbone
    object its constructor returns when called without argument. The package
    is not under [src/]; the registry is a parameter. *)
Variable backbones : gmap string hparams.Backbone.

(** The module [nn.Linear(in_features, out_features)] builds when it
    accepts the two sizes. *)
Variable Linear : Z -> Z -> Module.

(** [nn.Linear(in_features, out_features)]: a negative size is refused. *)
Definition nn_Linear (in_features out_features : Z) : result Module :=
  if (in_features <? 0) || (out_features <? 0) then raise RuntimeError
  else ok (Linear in_features out_features).

(** The module tree of a [RandomCutMixMixUp] object; the class is in
    [extras], which is not under [src/]. *)
Variable RandomCutMixMixUp_modules : RandomCutMixMixUp -> Module.

(** [l[-1]] *)
Definition last_item (l : list Z) : result Z :=
  match rev l with
  | [] => raise IndexError
  | x :: _ => ok x
  end.

(** Line 59: [backbones.__dict__[backbone]() if isinstance(backbone, str)
    else backbone]. *)
Definition resolve_backbone (b : string + hparams.Backbone)
  : result hparams.Backbone :=
  match b with
  | inl name =>
      match backbones !! name with
      | Some bb => ok bb
      | None => raise (KeyError name)
      end
  | inr bb => ok bb
  end.

(** [T.RandomErasing(p=p, value=random)]: a probability outside [0, 1] is
    refused. *)
Definition RandomErasing_init (p : Q) : result Transform :=
  if Qlt_le_dec p 0 then raise ValueError
  else if Qlt_le_dec 1 p then raise ValueError
  else ok (RandomErasing p).

(** Lines 68-75. *)
Definition make_train_transforms (random_erasing_p : Q)
  : result (list Transform) :=
  let train_transforms :=
    [RandomHorizontalFlip; TrivialAugmentWide; ConvertImageDtype; Normalize] in
  if Qlt_le_dec 0 random_erasing_p then
    (let* erasing := RandomErasing_init random_erasing_p in
     ok (train_transforms ++ [erasing]))%result
  else ok train_transforms.

(** Line 80: [RandomCutMixMixUp(...) if cutmix_alpha > 0 and mixup_alpha > 0
    else None]. *)
Definition make_mixup_cutmix (num_classes : Z) (cutmix_alpha mixup_alpha : Q)
  : option RandomCutMixMixUp :=
  if Qlt_le_dec 0 cutmix_alpha then
    if Qlt_le_dec 0 mixup_alpha then
      Some (mkRandomCutMixMixUp num_classes cutmix_alpha mixup_alpha)
    else None
  else None.

(** [ImageClassifier.__init__] (lines 29-83). The name [backbone] is bound
    to the backbone object from line 59 on, and that object is what
    [save_hyperparameters()] stores (line 83); [self.backbone] and
    [self.classifier] are the scripted modules (lines 65-66). What the
    constructor of [RandomCutMixMixUp] checks is not known and not
    modelled. *)
Definition __init__ (args : hparams.t) : result ImageClassifier :=
  (let* bb := resolve_backbone (hparams.backbone args) in
   let* in_features := last_item (hparams.get_out_channels bb) in
   let* linear := nn_Linear in_features (hparams.num_classes args) in
   let head := Sequential [plain_leaf; plain_leaf; linear] in
   let* transforms := make_train_transforms (hparams.random_erasing_p args) in
   let mc :=
     make_mixup_cutmix (hparams.num_classes args)
       (hparams.cutmix_alpha args) (hparams.mixup_alpha args) in
   ok {| hparams_ := hparams.with_backbone (inr bb) args;
         backbone := script (hparams.body bb);
         classifier := script head;
         train_transforms := transforms;
         mixup_cutmix := mc |})%result.

(** The classifier as the root of its module tree: the module attributes in
    the order of their assignment; an attribute set to [None] is not a
    child. The classifier itself holds no tensor. [self.train_transforms]
    and [self.mixup_cutmix] are scripted modules too (lines 78 and 81). *)
Definition as_module (self : ImageClassifier) : Module :=
  mkModule false []
    ([backbone self; classifier self;
      script (Sequential (map (fun _ => plain_leaf) (train_transforms self)))]
     ++ match mixup_cutmix self with
        | Some mc => [script (RandomCutMixMixUp_modules mc)]
        | None => []
        end).

(** *** Optimizers *)

Inductive optim_class : Type := SGD | Adam | AdamW | RMSprop.

(** An entry of [_optimizers]: the class and the [momentum] keyword that
    [partial] fixes, if any. *)
Record optim_ctor : Type := mkCtor {
  ctor_class : optim_class;
  ctor_momentum : option Q
}.

(** Lines 21-26. *)
Definition _optimizers : gmap string optim_ctor :=
  list_to_map
    [("SGD", mkCtor SGD (Some (9 # 10)%Q));
     ("Adam", mkCtor Adam None);
     ("AdamW", mkCtor AdamW None);
     ("RMSprop", mkCtor RMSprop (Some (9 # 10)%Q))].

(** The dictionary [{params: p, weight_decay: w}]. *)
Record param_group : Type := mkGroup {
  params : list Param;
  weight_decay : Q
}.

(** The first argument of an optimizer: an iterable of tensors, or a list
    of groups. *)
Inductive optimizer_params : Type :=
| Flat (ps : list Param)
| Groups (gs : list param_group).

(** An optimizer object, represented by the call that builds it:
    [ctor(parameters, lr=lr, weight_decay=weight_decay)]. *)
Record Optimizer : Type := mkOptimizer {
  opt_ctor : optim_ctor;
  opt_parameters : optimizer_params;
  opt_lr : Q;
  opt_weight_decay : Q
}.

(** [self.trainer], of which only [max_epochs] is read. *)
Record Trainer : Type := mkTrainer { max_epochs : Z }.

(** The dictionary [configure_optimizers] returns. *)
Record OptimizerConfig : Type := mkConfig {
  cfg_optimizer : Optimizer;
  cfg_lr_scheduler : Schedule.LRScheduler
}.

(** The truth value of a list: it is not empty. *)
Definition nonempty {A : Type} (l : list A) : bool :=
  match l with
  | [] => false
  | _ :: _ => true
  end.

(** Lines 137-156: the value of [parameters]. *)
Definition optimizer_parameters (self : ImageClassifier) : optimizer_params :=
  match hparams.norm_weight_decay (hparams_ self) with
  | Some norm_weight_decay =>
      let '(norm_params, other_params) :=
        split_normalization_params (as_module self) in
      let param_groups := [norm_params; other_params] in
      let wd_groups :=
        [norm_weight_decay; hparams.weight_decay (hparams_ self)] in
      Groups
        (map (fun pw => mkGroup (fst pw) (snd pw))
           (List.filter (fun pw => nonempty (fst pw))
              (combine param_groups wd_groups)))
  | None => Flat (parameters (as_module self))
  end.

(** Lines 160-167: the value of [lr_scheduler]. The attribute [optimizer]
    that lines 166-167 add to a sequential scheduler lacking it does not
    change the schedule. *)
Definition make_lr_scheduler (hp : hparams.t) (trainer : Trainer)
  : Schedule.LRScheduler :=
  let lr_scheduler :=
    Schedule.CosineAnnealingLR (max_epochs trainer - hparams.warmup_epochs hp) in
  if 0 <? hparams.warmup_epochs hp then
    let warmup_scheduler :=
      Schedule.LinearLR (hparams.warmup_decay hp) (hparams.warmup_epochs hp) in
    Schedule.SequentialLR [lr_scheduler; warmup_scheduler]
      [hparams.warmup_epochs hp]
  else lr_scheduler.

(** The same tensor object. *)
Definition same_tensor (p q : Param) : bool :=
  (pid p =? pid q)%nat && Bool.eqb (requires_grad p) (requires_grad q).

(** A tensor is in two of the groups. *)
Fixpoint groups_overlap (gs : list param_group) : bool :=
  match gs with
  | [] => false
  | g :: gs' =>
      existsb (fun p => existsb (fun g' => existsb (same_tensor p) (params g')) gs')
        (params g)
      || groups_overlap gs'
  end.

(** What the constructors of torch's four optimizers refuse, each with a
    [ValueError]: a negative learning rate or weight decay, an empty
    parameter list, a tensor that is in two groups. *)
Definition Optimizer_init (ctor : optim_ctor) (parameters : optimizer_params)
    (lr weight_decay : Q) : result Optimizer :=
  if Qlt_le_dec lr 0 then raise ValueError
  else if Qlt_le_dec weight_decay 0 then raise ValueError
  else
    match parameters with
    | Flat [] | Groups [] => raise ValueError
    | Flat (_ :: _) => ok (mkOptimizer ctor parameters lr weight_decay)
    | Groups (_ :: _ as gs) =>
        if groups_overlap gs then raise ValueError
        else ok (mkOptimizer ctor parameters lr weight_decay)
    end.

(** What the constructor of [LinearLR] refuses: a start factor above 1 or
    below 0. *)
Definition LinearLR_init (start_factor : Q) : result unit :=
  if Qlt_le_dec 1 start_factor then raise ValueError
  else if Qlt_le_dec start_factor 0 then raise ValueError
  else ok tt.

(** [ImageClassifier.configure_optimizers] (lines 136-172): the lookup of
    line 158, then the constructor of the optimizer, then those of the
    schedulers. Of what the constructors of torch refuse, the cases of
    [Optimizer_init] and [LinearLR_init] are modelled; there may be others,
    so the model is only relied on for what [configure_optimizers] returns
    when it returns. *)
Definition configure_optimizers (self : ImageClassifier) (trainer : Trainer)
  : result OptimizerConfig :=
  let hp := hparams_ self in
  let parameters := optimizer_parameters self in
  match _optimizers !! hparams.optimizer hp with
  | None => raise (KeyError (hparams.optimizer hp))
  | Some ctor =>
      (let* optimizer :=
         Optimizer_init ctor parameters (hparams.lr hp)
           (hparams.weight_decay hp) in
       let* _ :=
         if 0 <? hparams.warmup_epochs hp
         then LinearLR_init (hparams.warmup_decay hp)
         else ok tt in
       ok {| cfg_optimizer := optimizer;
             cfg_lr_scheduler := make_lr_scheduler hp trainer |})%result
  end.

End Construction.

End Classifier.

(** ** Tensors of the validation metrics *)

Module Metrics.

(** The outcome of a floating-point computation: a finite value, an infinity
    or not-a-number. *)
Inductive fval : Type :=
| Fin (q : Q)
| Inf (negative : bool)
| NaN.

(** The labels of a batch: class indices, or one distribution over the
    classes per sample (what mixed-sample augmentation returns). *)
Inductive Labels : Type :=
| Hard (classes : list Z)
| Soft (distributions : list (list Q)).

(** The index of the first maximal item of [row], scanning from index [i]
    with the best item so far [best] at index [best_i]. *)
Fixpoint argmax_from (best_i : nat) (best : Q) (i : nat) (row : list Q) : nat :=
  match row with
  | [] => best_i
  | x :: row' =>
      if Qlt_le_dec best x then argmax_from i x (S i) row'
      else argmax_from best_i best (S i) row'
  end.

(** [torch.argmax] over one row: the index of the first maximal value; an
    empty row is an error. *)
Definition argmax (row : list Q) : result Z :=
  match row with
  | [] => raise IndexError
  | x :: row' => ok (Z.of_nat (argmax_from 0 x 1 row'))
  end.

(** [torch.argmax(logits, dim=-1)] for [logits] of shape (batch, classes). *)
Fixpoint argmax_rows (logits : list (list Q)) : result (list Z) :=
  match logits with
  | [] => ok []
  | row :: rest =>
      (let* k := argmax row in
       let* ks := argmax_rows rest in
       ok (k :: ks))%result
  end.

(** [labels == preds] for two tensors of one shape. *)
Definition tensor_eq (labels preds : list Z) : list bool :=
  map (fun lp => fst lp =? snd lp) (combine labels preds).

(** [.sum()] of a boolean tensor. *)
Definition tensor_sum (t : list bool) : Z :=
  fold_left (fun acc (b : bool) => acc + (if b then 1 else 0)) t 0.

(** [labels.numel()] *)
Definition numel (labels : list Z) : Z := Z.of_nat (length labels).

(** The division of two integer tensors of one item, which is a true
    division: 0/0 is not-a-number. *)
Definition true_divide (a b : Z) : fval :=
  if b =? 0 then (if a =? 0 then NaN else Inf (a <? 0))
  else Fin (inject_Z a / inject_Z b)%Q.

(** Lines 131-133 of [validation_step]: the value of [acc]. *)
Definition accuracy (logits : list (list Q)) (labels : list Z) : result fval :=
  (let* preds := argmax_rows logits in
   let correct := tensor_sum (tensor_eq labels preds) in
   ok (true_divide correct (numel labels)))%result.

(** *** What the statements about accuracy refer to *)

(** [k] is the index of the first maximal item of [row]. *)
Definition is_first_max (row : list Q) (k : Z) : Prop :=
  0 <= k /\
  exists x, nth_error row (Z.to_nat k) = Some x /\
    (forall j y, nth_error row j = Some y -> (y <= x)%Q) /\
    (forall j y, (j < Z.to_nat k)%nat -> nth_error row j = Some y -> (y < x)%Q).

(** The number of positions at which two lists agree. *)
Fixpoint count_equal (a b : list Z) : nat :=
  match a, b with
  | x :: a', y :: b' => ((if Z.eq_dec x y then 1 else 0) + count_equal a' b')%nat
  | _, _ => O
  end.

End Metrics.

(** ** The training and validation steps *)

Module Steps.
Import Tree Classifier Metrics.

Section Steps.

(** A batch of images. *)
Variable Images : Type.

(** Everything a step reads and updates besides its arguments: the random
    generator and the buffers of the modules. *)
Variable Env : Type.

(** One transform of [train_transforms] applied to a batch. *)
Variable apply_transform : Transform -> Images -> Env -> Images * Env.

(** [RandomCutMixMixUp.forward(images, labels)]; the class is in [extras],
    which is not under [src/]. It returns one distribution per sample. *)
Variable RandomCutMixMixUp_forward :
  RandomCutMixMixUp -> Images -> list Z -> Env -> (Images * list (list Q)) * Env.

(** [self(images)], that is [self.classifier(self.backbone(images))], as a
    function of the two modules: one row of logits per sample. *)
Variable forward : Module -> Module -> Images -> Env -> list (list Q) * Env.

(** [ImageClassifier.forward] (lines 106-109). *)
Definition call (self : ImageClassifier) (images : Images)
  : Env -> list (list Q) * Env :=
  forward (backbone self) (classifier self) images.

(** [F.cross_entropy(input, target, label_smoothing=s)]; [s] is 0.0 when the
    keyword is left out. *)
Variable cross_entropy : list (list Q) -> Labels -> Q -> fval.

(** The state a step runs in: the environment and what [self.log] has
    recorded so far. *)
Record World : Type := mkWorld {
  env : Env;
  logged : list (string * fval)
}.

(** A step is a state transformer that can raise. *)
Definition M (A : Type) : Type := World -> result A * World.

Definition ret {A : Type} (a : A) : M A := fun w => (ok a, w).

Definition mbind {A B : Type} (m : M A) (k : A -> M B) : M B :=
  fun w =>
    match m w with
    | (inl e, w') => (inl e, w')
    | (inr a, w') => k a w'
    end.

Notation "x <- m ;; k" := (mbind m (fun x => k))
  (at level 100, m at next level, right associativity).

(** An operation on the environment that cannot raise. *)
Definition lift_env {A : Type} (f : Env -> A * Env) : M A :=
  fun w => let '(a, e) := f (env w) in (ok a, mkWorld e (logged w)).

Definition lift_result {A : Type} (r : result A) : M A := fun w => (r, w).

(** [self.log(name, value)] *)
Definition log (name : string) (value : fval) : M unit :=
  fun w => (ok tt, mkWorld (env w) (logged w ++ [(name, value)])).

(** [self.train_transforms(images)]: the transforms in order. *)
Fixpoint apply_transforms (ts : list Transform) (images : Images) : M Images :=
  match ts with
  | [] => ret images
  | t :: ts' =>
      images' <- lift_env (apply_transform t images) ;;
      apply_transforms ts' images'
  end.

(** Lines 115-116 of [training_step]. *)
Definition mixed_sample (self : ImageClassifier) (images : Images)
    (labels : list Z) : M (Images * Labels) :=
  match mixup_cutmix self with
  | Some mc =>
      r <- lift_env (RandomCutMixMixUp_forward mc images labels) ;;
      ret (fst r, Soft (snd r))
  | None => ret (images, Hard labels)
  end.

(** [ImageClassifier.training_step] (lines 111-122). *)
Definition training_step (self : ImageClassifier) (batch : Images * list Z)
    (batch_idx : Z) : M fval :=
  let '(images, labels) := batch in
  images <- apply_transforms (train_transforms self) images ;;
  il <- mixed_sample self images labels ;;
  logits <- lift_env (call self (fst il)) ;;
  let loss := cross_entropy logits (snd il) 0%Q in
  _ <- log "train/loss" loss ;;
  ret loss.

(** [ImageClassifier.validation_step] (lines 124-134). *)
Definition validation_step (self : ImageClassifier) (batch : Images * list Z)
    (batch_idx : Z) : M unit :=
  let '(images, labels) := batch in
  logits <- lift_env (call self images) ;;
  let loss :=
    cross_entropy logits (Hard labels)
      (hparams.label_smoothing (hparams_ self)) in
  _ <- log "val/loss" loss ;;
  acc <- lift_result (accuracy logits labels) ;;
  log "val/acc" acc.

End Steps.

Arguments mkWorld {Env} _ _.
Arguments env {Env} _.
Arguments logged {Env} _.
Arguments ret {Env A} _ _.
Arguments mbind {Env A B} _ _ _.
Arguments log {Env} _ _ _.
Arguments apply_transforms {Images Env} _ _ _ _.
Arguments mixed_sample {Images Env} _ _ _ _ _.
Arguments training_step {Images Env} _ _ _ _ _ _ _ _.
Arguments validation_step {Images Env} _ _ _ _ _ _.

End Steps.

(** ** Concrete objects *)

Module Examples.
Import Tree Classifier.

(** A batch-normalization leaf with a weight and a bias. *)
Definition bn : Module := mkModule true [mkParam 1 true; mkParam 2 true] [].

(** A convolution leaf with one weight. *)
Definition conv : Module := mkModule false [mkParam 3 true] [].

(** A leaf whose only tensor is frozen. *)
Definition frozen : Module := mkModule false [mkParam 4 false] [].

(** A composite module of a normalization class that registers a tensor of
    its own next to its two children. *)
Definition block : Module := mkModule true [mkParam 5 true] [bn; conv].

Definition net : Module := mkModule false [] [block; frozen].

(** A tree in which one tensor is registered on a normalization leaf and on
    another leaf. *)
Definition tied : Module :=
  mkModule false []
    [mkModule true [mkParam 1 true] []; mkModule false [mkParam 1 true] []].

Definition resnet18 : hparams.Backbone := hparams.mkBackbone [64; 128; 256; 512] net.

Definition darknet53 : hparams.Backbone :=
  hparams.mkBackbone [64; 128; 256; 512; 1024] conv.

(** A name space with two constructors. *)
Definition registry : gmap string hparams.Backbone :=
  list_to_map [("resnet18", resnet18); ("darknet53", darknet53)].

(** A linear layer: a leaf with a fresh weight and a fresh bias. *)
Definition linear (in_features out_features : Z) : Module :=
  mkModule false [mkParam 100 true; mkParam 101 true] [].

Definition mixer_modules (mc : RandomCutMixMixUp) : Module := plain_leaf.

(** The default configuration over a given backbone object. *)
Definition args : hparams.t :=
  hparams.defaults (inr resnet18) 10 "train" "val".

(** The default configuration over a registered name. *)
Definition args_by_name (name : string) : hparams.t :=
  hparams.defaults (inl name) 10 "train" "val".

(** The classifier [__init__] builds from a configuration [hp] over the
    object [resnet18] with the default augmentation: its backbone is the
    scripted tree. *)
Definition built (hp : hparams.t) : ImageClassifier :=
  {| hparams_ := hp;
     backbone := script net;
     classifier := Sequential [plain_leaf; plain_leaf; linear 512 10];
     train_transforms :=
       [RandomHorizontalFlip; TrivialAugmentWide; ConvertImageDtype; Normalize;
        RandomErasing (1 # 10)%Q];
     mixup_cutmix := Some (mkRandomCutMixMixUp 10 1%Q (2 # 10)%Q) |}.

(** The same classifier without a mixer. *)
Definition built_plain (hp : hparams.t) : ImageClassifier :=
  {| hparams_ := hp;
     backbone := script net;
     classifier := Sequential [plain_leaf; plain_leaf; linear 512 10];
     train_transforms :=
       [RandomHorizontalFlip; TrivialAugmentWide; ConvertImageDtype; Normalize;
        RandomErasing (1 # 10)%Q];
     mixup_cutmix := None |}.

(** Stand-ins for the tensor operations, for running the steps: images are
    lists of numbers, the environment is a counter of the calls made. *)
Definition transform_stub (t : Transform) (images : list Q) (e : nat)
  : list Q * nat := (images, S e).

Definition mixer_stub (mc : RandomCutMixMixUp) (images : list Q)
    (labels : list Z) (e : nat) : (list Q * list (list Q)) * nat :=
  ((images, map (fun _ => []) labels), S e).

Definition forward_stub (backbone classifier : Module) (images : list Q)
    (e : nat) : list (list Q) * nat :=
  ([[2; 1]; [0; 3]]%Q, S e).

Definition cross_entropy_stub (logits : list (list Q)) (labels : Metrics.Labels)
    (label_smoothing : Q) : Metrics.fval :=
  Metrics.Fin label_smoothing.

End Examples.

(** ** Data loaders *)

Module Data.
Import Classifier.

(** The members of the transform a dataset applies to each image it loads. *)
Inductive DatasetTransform : Type :=
| RandomResizedCrop (size : Z)
| Resize (size : Z)
| CenterCrop (size : Z)
| PILToTensor
| ConvertImageDtype
| Normalize.

(** [DataLoader(ImageFolder(root, transform=T.Compose(transform)),
    batch_size, shuffle, num_workers, pin_memory)], represented by the call
    that builds it. *)
Record DataLoader : Type := mkDataLoader {
  root : string;
  transform : list DatasetTransform;
  batch_size : Z;
  shuffle : bool;
  num_workers : Z;
  pin_memory : bool
}.

(** [ImageClassifier.train_dataloader] (lines 85-92). *)
Definition train_dataloader (self : ImageClassifier) : DataLoader :=
  let transform :=
    [RandomResizedCrop (hparams.train_crop_size (hparams_ self)); PILToTensor] in
  {| root := hparams.train_dir (hparams_ self);
     transform := transform;
     batch_size := hparams.batch_size (hparams_ self);
     shuffle := true;
     num_workers := hparams.num_workers (hparams_ self);
     pin_memory := true |}.

(** [ImageClassifier.val_dataloader] (lines 94-104). *)
Definition val_dataloader (self : ImageClassifier) : DataLoader :=
  let transform :=
    [Resize (hparams.val_resize_size (hparams_ self));
     CenterCrop (hparams.val_crop_size (hparams_ self));
     PILToTensor; ConvertImageDtype; Normalize] in
  {| root := hparams.val_dir (hparams_ self);
     transform := transform;
     batch_size := hparams.batch_size (hparams_ self);
     shuffle := false;
     num_workers := hparams.num_workers (hparams_ self);
     pin_memory := true |}.

(** *** What the statements about the two pipelines refer to *)

(** The operations that change how the pixels of an image are encoded, as
    opposed to which pixels it has: the conversion of the decoded image to a
    tensor, the conversion of its values to floats, and the normalization of
    the floats (mean 0.5 and deviation 0.5 per channel at each of its uses in
    the source). *)
Inductive Encoding : Type := ToTensor | ToFloat | Normalized.

Definition dataset_encoding (t : DatasetTransform) : option Encoding :=
  match t with
  | PILToTensor => Some ToTensor
  | ConvertImageDtype => Some ToFloat
  | Normalize => Some Normalized
  | RandomResizedCrop _ | Resize _ | CenterCrop _ => None
  end.

Definition module_encoding (t : Transform) : option Encoding :=
  match t with
  | Classifier.ConvertImageDtype => Some ToFloat
  | Classifier.Normalize => Some Normalized
  | RandomHorizontalFlip | TrivialAugmentWide | RandomErasing _ => None
  end.

(** The encoding operations among a list of transforms, in order. *)
Fixpoint encodings {A : Type} (f : A -> option Encoding) (ts : list A)
  : list Encoding :=
  match ts with
  | [] => []
  | t :: ts' =>
      match f t with
      | Some e => e :: encodings f ts'
      | None => encodings f ts'
      end
  end.

(** The encoding operations an image goes through before the forward pass of
    [training_step]: those of the training data set, then those of
    [self.train_transforms]. *)
Definition train_encodings (self : ImageClassifier) : list Encoding :=
  encodings dataset_encoding (transform (train_dataloader self))
  ++ encodings module_encoding (train_transforms self).

(** The same for [validation_step], which applies no transform of its own. *)
Definition val_encodings (self : ImageClassifier) : list Encoding :=
  encodings dataset_encoding (transform (val_dataloader self)).

End Data.

(** ** The backbone interface *)

Module Backbones.

(** A tensor, of which only the shape is observed. *)
Record Tensor : Type := mkTensor { shape : list Z }.

(** [BaseBackbone] (src/vision_toolbox/backbones/base.py): a subclass
    implements [get_feature_maps]; [out_channels_list] and [stride] are the
    attributes the tests require of every backbone. The static constructor
    [from_config] and the loading of weights from a URL are not modelled. *)
Class BaseBackbone (B : Type) : Type := {
  get_feature_maps : B -> Tensor -> list Tensor;
  out_channels_list : B -> list Z;
  stride : B -> Z
}.

(** [l[-1]] *)
Definition last_of {A : Type} (l : list A) : result A :=
  match rev l with
  | [] => raise IndexError
  | x :: _ => ok x
  end.

(** [BaseBackbone.forward] (lines 16-17). *)
Definition forward {B : Type} `{BaseBackbone B} (self : B) (x : Tensor)
  : result Tensor :=
  last_of (get_feature_maps self x).

(** [out.shape[1]] *)
Definition channels (t : Tensor) : option Z := nth_error (shape t) 1.

(** [TestBackbone.test_get_feature_maps] (tests/test_backbones.py, lines
    57-66) on the backbone [m]: [true] when every assertion holds. *)
Definition test_get_feature_maps {B : Type} `{BaseBackbone B} (m : B)
    (inputs : Tensor) : bool :=
  let outputs := get_feature_maps m inputs in
  (length outputs =? length (out_channels_list m))%nat
  && forallb
       (fun oc : Tensor * Z =>
          (length (shape (fst oc)) =? 4)%nat
          && match channels (fst oc) with
             | Some c => c =? snd oc
             | None => false
             end)
       (combine outputs (out_channels_list m)).

(** [TestBackbone.test_forward] (lines 50-55): [true] when the call returns
    and the assertion holds. *)
Definition test_forward {B : Type} `{BaseBackbone B} (m : B) (inputs : Tensor)
  : bool :=
  match forward m inputs with
  | inr outputs => (length (shape outputs) =? 4)%nat
  | inl _ => false
  end.

End Backbones.

(** ** More concrete objects *)

Module Variants.
Import Tree Classifier.

(** A configuration with some fields replaced. *)
Definition with_optimizer (name : string) (hp : hparams.t) : hparams.t :=
  {| hparams.backbone := hparams.backbone hp;
     hparams.num_classes := hparams.num_classes hp;
     hparams.train_dir := hparams.train_dir hp;
     hparams.val_dir := hparams.val_dir hp;
     hparams.batch_size := hparams.batch_size hp;
     hparams.num_workers := hparams.num_workers hp;
     hparams.train_crop_size := hparams.train_crop_size hp;
     hparams.val_resize_size := hparams.val_resize_size hp;
     hparams.val_crop_size := hparams.val_crop_size hp;
     hparams.random_erasing_p := hparams.random_erasing_p hp;
     hparams.mixup_alpha := hparams.mixup_alpha hp;
     hparams.cutmix_alpha := hparams.cutmix_alpha hp;
     hparams.optimizer := name;
     hparams.lr := hparams.lr hp;
     hparams.weight_decay := hparams.weight_decay hp;
     hparams.norm_weight_decay := hparams.norm_weight_decay hp;
     hparams.label_smoothing := hparams.label_smoothing hp;
     hparams.warmup_epochs := hparams.warmup_epochs hp;
     hparams.warmup_decay := hparams.warmup_decay hp |}.

Definition with_norm_weight_decay (nwd : option Q) (hp : hparams.t) : hparams.t :=
  {| hparams.backbone := hparams.backbone hp;
     hparams.num_classes := hparams.num_classes hp;
     hparams.train_dir := hparams.train_dir hp;
     hparams.val_dir := hparams.val_dir hp;
     hparams.batch_size := hparams.batch_size hp;
     hparams.num_workers := hparams.num_workers hp;
     hparams.train_crop_size := hparams.train_crop_size hp;
     hparams.val_resize_size := hparams.val_resize_size hp;
     hparams.val_crop_size := hparams.val_crop_size hp;
     hparams.random_erasing_p := hparams.random_erasing_p hp;
     hparams.mixup_alpha := hparams.mixup_alpha hp;
     hparams.cutmix_alpha := hparams.cutmix_alpha hp;
     hparams.optimizer := hparams.optimizer hp;
     hparams.lr := hparams.lr hp;
     hparams.weight_decay := hparams.weight_decay hp;
     hparams.norm_weight_decay := nwd;
     hparams.label_smoothing := hparams.label_smoothing hp;
     hparams.warmup_epochs := hparams.warmup_epochs hp;
     hparams.warmup_decay := hparams.warmup_decay hp |}.

(** The three augmentation settings replaced. *)
Definition with_augmentation (random_erasing_p mixup_alpha cutmix_alpha : Q)
    (hp : hparams.t) : hparams.t :=
  {| hparams.backbone := hparams.backbone hp;
     hparams.num_classes := hparams.num_classes hp;
     hparams.train_dir := hparams.train_dir hp;
     hparams.val_dir := hparams.val_dir hp;
     hparams.batch_size := hparams.batch_size hp;
     hparams.num_workers := hparams.num_workers hp;
     hparams.train_crop_size := hparams.train_crop_size hp;
     hparams.val_resize_size := hparams.val_resize_size hp;
     hparams.val_crop_size := hparams.val_crop_size hp;
     hparams.random_erasing_p := random_erasing_p;
     hparams.mixup_alpha := mixup_alpha;
     hparams.cutmix_alpha := cutmix_alpha;
     hparams.optimizer := hparams.optimizer hp;
     hparams.lr := hparams.lr hp;
     hparams.weight_decay := hparams.weight_decay hp;
     hparams.norm_weight_decay := hparams.norm_weight_decay hp;
     hparams.label_smoothing := hparams.label_smoothing hp;
     hparams.warmup_epochs := hparams.warmup_epochs hp;
     hparams.warmup_decay := hparams.warmup_decay hp |}.

(** A backbone object that declares no channel. *)
Definition channelless : hparams.Backbone := hparams.mkBackbone [] Examples.conv.

(** A backbone without a normalization layer. *)
Definition plain_net : Module :=
  mkModule false [mkParam 7 true]
    [Examples.conv; Examples.frozen; mkModule false [mkParam 8 true] []].

(** A backbone whose tensors are all frozen. *)
Definition frozen_net : Module :=
  mkModule false []
    [mkModule true [mkParam 1 false; mkParam 2 false] []; Examples.frozen].

(** A classifier over a given backbone tree, with a head that holds no
    tensor and without a mixer. *)
Definition bare (hp : hparams.t) (tree : Module) : ImageClassifier :=
  {| hparams_ := hp;
     backbone := tree;
     classifier := Sequential [plain_leaf; plain_leaf; plain_leaf];
     train_transforms := [];
     mixup_cutmix := None |}.

(** A backbone with two feature maps, of 64 and 128 channels, whatever the
    input. *)
Inductive TwoStage : Type := two_stage.

#[export] Instance TwoStage_backbone : Backbones.BaseBackbone TwoStage := {
  get_feature_maps _ _ :=
    [Backbones.mkTensor [1; 64; 56; 56]; Backbones.mkTensor [1; 128; 28; 28]];
  out_channels_list _ := [64; 128];
  stride _ := 8
}.

(** A backbone that returns no feature map. *)
Inductive NoStage : Type := no_stage.

#[export] Instance NoStage_backbone : Backbones.BaseBackbone NoStage := {
  get_feature_maps _ _ := [];
  out_channels_list _ := [];
  stride _ := 1
}.

End Variants.

(** ** Batches as lists of samples *)

Module Batches.

(** The row of logits of a sample, with its label. *)
Definition sample : Type := (list Q * Z)%type.

(** The prediction for the sample is its label. *)
Definition is_hit (s : sample) : bool :=
  match Metrics.argmax (fst s) with
  | inr k => k =? snd s
  | inl _ => false
  end.

(** The number of samples whose prediction is their label. *)
Definition hits (samples : list sample) : nat :=
  length (List.filter is_hit samples).

(** The row of logits of the sample has at least one class. *)
Definition has_class (s : sample) : bool :=
  match fst s with
  | [] => false
  | _ :: _ => true
  end.

End Batches.

(** * Properties *)

(** ** Parameter grouping *)

Module TreeFacts.
Import Tree.

(** Induction over module trees, with the hypothesis for every child. *)
Lemma Module_forall_ind (P : Module -> Prop) :
  (forall b ps cs, Forall P cs -> P (mkModule b ps cs)) ->
  forall m, P m.
Proof.
  intros step. fix IH 1. intros [b ps cs]. apply step.
  induction cs as [|c cs IHcs]; constructor; [apply IH | exact IHcs].
Qed.

Lemma has_child_is_leaf m : has_child m = negb (is_leaf m).
Proof. destruct m as [b ps [|c cs]]; reflexivity. Qed.

Lemma parameters_leaf m : has_child m = false -> parameters m = _parameters m.
Proof.
  destruct m as [b ps [|c cs]]; simpl; intros H; [|discriminate].
  apply app_nil_r.
Qed.

(** [parameters] collects the tensors of the modules [modules] visits. *)
Lemma parameters_modules m : parameters m = flat_map _parameters (modules m).
Proof.
  induction m as [b ps cs IH] using Module_forall_ind. simpl. f_equal.
  induction IH as [|c cs Hc _ IHcs]; simpl; [reflexivity|].
  rewrite flat_map_app, Hc, IHcs. reflexivity.
Qed.

Lemma trainable_app l1 l2 : trainable (l1 ++ l2) = trainable l1 ++ trainable l2.
Proof. apply List.filter_app. Qed.

Lemma trainable_flat_map {A} (f : A -> list Param) l :
  trainable (flat_map f l) = flat_map (fun x => trainable (f x)) l.
Proof.
  induction l as [|x l IH]; simpl; [reflexivity|].
  rewrite trainable_app, IH. reflexivity.
Qed.

Lemma In_trainable p l : In p (trainable l) <-> In p l /\ requires_grad p = true.
Proof. apply List.filter_In. Qed.

(** The loop, unrolled: each list is the concatenation of what the turns
    add to it. *)
Lemma fold_split_step ms n o :
  fold_left split_step ms (n, o)
  = (n ++ flat_map norm_part ms, o ++ flat_map other_part ms).
Proof.
  revert n o. induction ms as [|m ms IH]; intros n o; simpl.
  - rewrite !app_nil_r. reflexivity.
  - unfold norm_part at 1, other_part at 1.
    destruct (has_child m); [|destruct (is_norm m)]; rewrite IH;
      simpl; rewrite <- ?app_assoc; reflexivity.
Qed.

Lemma norm_params_eq root : norm_params root = flat_map norm_part (modules root).
Proof. unfold norm_params, split_normalization_params. now rewrite fold_split_step. Qed.

Lemma other_params_eq root : other_params root = flat_map other_part (modules root).
Proof. unfold other_params, split_normalization_params. now rewrite fold_split_step. Qed.

(** One turn distributes exactly the trainable tensors of the module. *)
Lemma parts_own m :
  norm_part m ++ other_part m = trainable (_parameters m).
Proof.
  unfold norm_part, other_part, parameters_norecurse.
  destruct (has_child m) eqn:Hc; [reflexivity|].
  rewrite (parameters_leaf m Hc).
  destruct (is_norm m); [apply app_nil_r | reflexivity].
Qed.

Lemma Permutation_flat_map_app {A B} (f g : A -> list B) l :
  Permutation (flat_map f l ++ flat_map g l) (flat_map (fun x => f x ++ g x) l).
Proof.
  induction l as [|x l IH]; simpl; [constructor|].
  rewrite <- app_assoc.
  apply Permutation_trans with (f x ++ g x ++ flat_map f l ++ flat_map g l).
  - apply Permutation_app_head. rewrite !app_assoc.
    apply Permutation_app_tail. apply Permutation_app_comm.
  - rewrite (app_assoc (f x)). apply Permutation_app_head. exact IH.
Qed.

Lemma split_permutation root :
  Permutation (norm_params root ++ other_params root)
              (trainable (parameters root)).
Proof.
  rewrite norm_params_eq, other_params_eq, parameters_modules, trainable_flat_map.
  eapply Permutation_trans; [apply Permutation_flat_map_app|].
  erewrite flat_map_ext; [reflexivity|]. intros m. apply parts_own.
Qed.

Lemma NoDup_trainable l : List.NoDup l -> List.NoDup (trainable l).
Proof. apply List.NoDup_filter. Qed.

Lemma NoDup_app_disjoint {A} (l1 l2 : list A) x :
  List.NoDup (l1 ++ l2) -> In x l1 -> In x l2 -> False.
Proof.
  induction l1 as [|a l1 IH]; simpl; intros Hnd H1 H2; [contradiction|].
  inversion Hnd as [|? ? Hnotin Hnd']; subst.
  destruct H1 as [->|H1].
  - apply Hnotin, in_or_app. now right.
  - now apply IH.
Qed.

End TreeFacts.

Module Grouping.
Import Tree TreeFacts.

Lemma norm_part_leaf_norm m :
  norm_part m
  = if is_leaf m && is_norm m then trainable (_parameters m) else [].
Proof.
  unfold norm_part. rewrite has_child_is_leaf.
  destruct (is_leaf m) eqn:Hl; simpl; [|reflexivity].
  destruct (is_norm m); [|reflexivity].
  rewrite parameters_leaf; [reflexivity|].
  rewrite has_child_is_leaf, Hl. reflexivity.
Qed.

Lemma norm_params_leaves root :
  norm_params root
  = flat_map (fun m => trainable (_parameters m)) (norm_leaves root).
Proof.
  rewrite norm_params_eq. unfold norm_leaves.
  induction (modules root) as [|m ms IH]; simpl; [reflexivity|].
  rewrite norm_part_leaf_norm, IH.
  destruct (is_leaf m && is_norm m); simpl; reflexivity.
Qed.

Lemma part_trainable m p :
  In p (norm_part m) \/ In p (other_part m) -> In p (trainable (_parameters m)).
Proof.
  intros H. rewrite <- parts_own. apply in_or_app. exact H.
Qed.

Lemma grouped_requires_grad root p :
  In p (norm_params root) \/ In p (other_params root) -> requires_grad p = true.
Proof.
  rewrite norm_params_eq, other_params_eq, !in_flat_map.
  intros [[m [_ H]]|[m [_ H]]];
    (assert (Ht : In p (trainable (_parameters m)))
       by (apply part_trainable; auto));
    apply In_trainable in Ht; tauto.
Qed.

Lemma composite_in_other root m p :
  In m (modules root) -> is_leaf m = false ->
  In p (_parameters m) -> requires_grad p = true ->
  In p (other_params root).
Proof.
  intros Hm Hl Hp Hg. rewrite other_params_eq. apply in_flat_map.
  exists m. split; [exact Hm|].
  unfold other_part. rewrite has_child_is_leaf, Hl. simpl.
  apply In_trainable. now split.
Qed.

Lemma split_NoDup root :
  List.NoDup (parameters root) ->
  List.NoDup (norm_params root ++ other_params root).
Proof.
  intros Hnd. eapply Permutation_NoDup.
  - apply Permutation_sym, split_permutation.
  - now apply NoDup_trainable.
Qed.

Lemma split_exclusive root p :
  List.NoDup (parameters root) ->
  In p (norm_params root) -> In p (other_params root) -> False.
Proof.
  intros Hnd. apply NoDup_app_disjoint. now apply split_NoDup.
Qed.

(** The grouping pass in terms of the answers of [isinstance] on the modules
    it visits. For every module tree, the normalization list is exactly the
    gradient-tracking tensors of the leaf modules on which
    [isinstance(module, norm_classes)] holds; a gradient-tracking tensor
    registered on a module that has children is put in the other list
    whatever the class of that module (and, the tensors of the tree being
    distinct, not in the normalization list); no tensor whose gradient
    tracking is off is in either list. On the modules of a constructed
    classifier, which are scripted, the answer is never true. *)
Theorem norm_group_exactly_leaf_norms (root : Module) :
  norm_params root
  = flat_map (fun m => trainable (_parameters m)) (norm_leaves root)
  /\ (forall m p,
        In m (modules root) -> is_leaf m = false ->
        In p (_parameters m) -> requires_grad p = true ->
        In p (other_params root))
  /\ (List.NoDup (parameters root) ->
      forall m p,
        In m (modules root) -> is_leaf m = false ->
        In p (_parameters m) -> ~ In p (norm_params root))
  /\ (forall p,
        In p (norm_params root) \/ In p (other_params root) ->
        requires_grad p = true).
Proof.
  split; [apply norm_params_leaves|].
  split; [apply composite_in_other|].
  split; [|apply grouped_requires_grad].
  intros Hnd m p Hm Hl Hp Hn.
  apply (split_exclusive root p Hnd Hn).
  apply (composite_in_other root m p Hm Hl Hp).
  apply (grouped_requires_grad root p). now left.
Qed.

Lemma net_parameters_NoDup : List.NoDup (parameters Examples.net).
Proof.
  simpl. repeat (constructor; [simpl; intuition discriminate|]). constructor.
Qed.

Lemma norm_group_exactly_leaf_norms_witness :
  norm_params Examples.net = [mkParam 1 true; mkParam 2 true]
  /\ In (mkParam 5 true) (other_params Examples.net)
  /\ ~ In (mkParam 5 true) (norm_params Examples.net)
  /\ ~ In (mkParam 4 false) (norm_params Examples.net ++ other_params Examples.net).
Proof.
  destruct (norm_group_exactly_leaf_norms Examples.net) as (H1 & H2 & H3 & H4).
  split; [rewrite H1; reflexivity|].
  split; [apply (H2 Examples.block); simpl; auto|].
  split; [apply (H3 net_parameters_NoDup Examples.block); simpl; auto|].
  intros Hin. apply in_app_or in Hin. apply H4 in Hin. discriminate Hin.
Defined.

(** C10. On a module tree whose tensors are distinct objects, the grouping
    pass partitions the gradient-tracking tensors: the two lists together
    are a rearrangement of the gradient-tracking tensors of the tree, without
    repetition, and each such tensor is in exactly one of the two lists. *)
Theorem grouping_partitions_trainable (root : Module) :
  List.NoDup (parameters root) ->
  Permutation (norm_params root ++ other_params root)
              (trainable (parameters root))
  /\ List.NoDup (norm_params root ++ other_params root)
  /\ (forall p,
        In p (parameters root) -> requires_grad p = true ->
        (In p (norm_params root) /\ ~ In p (other_params root))
        \/ (In p (other_params root) /\ ~ In p (norm_params root))).
Proof.
  intros Hnd. split; [apply split_permutation|].
  split; [now apply split_NoDup|].
  intros p Hp Hg.
  assert (Hin : In p (norm_params root ++ other_params root)).
  { eapply Permutation_in; [apply Permutation_sym, split_permutation|].
    apply In_trainable. now split. }
  apply in_app_or in Hin. destruct Hin as [Hn|Ho].
  - left. split; [exact Hn|]. intros Ho. exact (split_exclusive root p Hnd Hn Ho).
  - right. split; [exact Ho|]. intros Hn. exact (split_exclusive root p Hnd Hn Ho).
Qed.

Lemma grouping_partitions_trainable_witness :
  List.NoDup (parameters Examples.net)
  /\ Permutation
       (norm_params Examples.net ++ other_params Examples.net)
       [mkParam 5 true; mkParam 1 true; mkParam 2 true; mkParam 3 true].
Proof.
  split; [exact net_parameters_NoDup|].
  exact (proj1 (grouping_partitions_trainable Examples.net net_parameters_NoDup)).
Defined.

(** Without distinctness the pass repeats a tensor: one registered on a
    normalization leaf and on another leaf is put in both lists. *)
Remark tied_tensor_in_both_groups :
  norm_params Examples.tied = [mkParam 1 true]
  /\ other_params Examples.tied = [mkParam 1 true].
Proof. split; reflexivity. Qed.

End Grouping.

(** ** What the optimizer is handed *)

Module OptimizerFacts.
Import Tree TreeFacts Classifier.

Section WithModules.

Variable mixer_modules : RandomCutMixMixUp -> Module.

(** The list comprehension of line 153, written out. *)
Lemma optimizer_parameters_grouped (self : ImageClassifier) nwd :
  hparams.norm_weight_decay (hparams_ self) = Some nwd ->
  optimizer_parameters mixer_modules self
  = Groups
      ((if nonempty (norm_params (as_module mixer_modules self))
        then [mkGroup (norm_params (as_module mixer_modules self)) nwd]
        else [])
       ++ (if nonempty (other_params (as_module mixer_modules self))
           then [mkGroup (other_params (as_module mixer_modules self))
                   (hparams.weight_decay (hparams_ self))]
           else [])).
Proof.
  intros Hn. unfold optimizer_parameters, norm_params, other_params.
  rewrite Hn.
  destruct (split_normalization_params (as_module mixer_modules self))
    as [n o].
  simpl. destruct (nonempty n), (nonempty o); reflexivity.
Qed.

Lemma nonempty_true {A} (l : list A) : nonempty l = true -> l <> [].
Proof. destruct l; [discriminate | discriminate]. Qed.

Lemma configure_optimizers_inv self trainer cfg :
  configure_optimizers mixer_modules self trainer = inr cfg ->
  exists ctor,
    _optimizers !! hparams.optimizer (hparams_ self) = Some ctor
    /\ cfg_optimizer cfg
       = mkOptimizer ctor (optimizer_parameters mixer_modules self)
           (hparams.lr (hparams_ self)) (hparams.weight_decay (hparams_ self))
    /\ cfg_lr_scheduler cfg = make_lr_scheduler (hparams_ self) trainer.
Proof.
  unfold configure_optimizers, bind.
  destruct (_optimizers !! hparams.optimizer (hparams_ self)) as [ctor|];
    [|discriminate].
  destruct (Optimizer_init ctor (optimizer_parameters mixer_modules self)
              (hparams.lr (hparams_ self))
              (hparams.weight_decay (hparams_ self))) as [e|opt] eqn:Hopt;
    [discriminate|].
  destruct (if 0 <? hparams.warmup_epochs (hparams_ self)
            then LinearLR_init (hparams.warmup_decay (hparams_ self))
            else ok tt) as [e|u]; [discriminate|].
  intros H. injection H as <-. exists ctor. simpl.
  split; [reflexivity|]. split; [|reflexivity].
  unfold Optimizer_init in Hopt.
  destruct (Qlt_le_dec (hparams.lr (hparams_ self)) 0); [discriminate Hopt|].
  destruct (Qlt_le_dec (hparams.weight_decay (hparams_ self)) 0);
    [discriminate Hopt|].
  destruct (optimizer_parameters mixer_modules self) as [[|p ps]|[|g gs]];
    try discriminate Hopt.
  - now injection Hopt.
  - match type of Hopt with
    | context [if ?b then _ else _] => destruct b
    end; [discriminate Hopt | now injection Hopt].
Qed.

(** C5. In what [configure_optimizers] returns, the optimizer was built
    with the single coefficient [weight_decay]; when [norm_weight_decay] is
    [None] it was handed the flat tensors of the classifier, ungrouped; when
    grouping is active it was handed, in this order, the normalization group
    and the other group, each left out when it has no tensor, so no group it
    was handed is empty. *)
Theorem no_empty_group_handed (self : ImageClassifier) (trainer : Trainer)
    (cfg : OptimizerConfig) :
  configure_optimizers mixer_modules self trainer = inr cfg ->
  opt_weight_decay (cfg_optimizer cfg) = hparams.weight_decay (hparams_ self)
  /\ match hparams.norm_weight_decay (hparams_ self) with
     | None =>
         opt_parameters (cfg_optimizer cfg)
         = Flat (parameters (as_module mixer_modules self))
     | Some nwd =>
         exists gs,
           opt_parameters (cfg_optimizer cfg) = Groups gs
           /\ Forall (fun g => params g <> []) gs
           /\ gs
              = (if nonempty (norm_params (as_module mixer_modules self))
                 then [mkGroup (norm_params (as_module mixer_modules self)) nwd]
                 else [])
                ++ (if nonempty (other_params (as_module mixer_modules self))
                    then [mkGroup (other_params (as_module mixer_modules self))
                            (hparams.weight_decay (hparams_ self))]
                    else [])
     end.
Proof.
  intros H. apply configure_optimizers_inv in H.
  destruct H as (ctor & _ & Hopt & _). rewrite Hopt. simpl.
  split; [reflexivity|].
  destruct (hparams.norm_weight_decay (hparams_ self)) as [nwd|] eqn:Hn.
  - eexists. split; [apply optimizer_parameters_grouped; exact Hn|].
    split; [|reflexivity].
    destruct (nonempty (norm_params _)) eqn:E1,
             (nonempty (other_params _)) eqn:E2; simpl;
      repeat constructor; simpl; auto using nonempty_true.
  - unfold optimizer_parameters. rewrite Hn. reflexivity.
Qed.

End WithModules.

Lemma no_empty_group_handed_witness :
  exists cfg,
    configure_optimizers Examples.mixer_modules (Examples.built Examples.args)
      (mkTrainer 100) = inr cfg
    /\ opt_parameters (cfg_optimizer cfg)
       = Groups
           [mkGroup [mkParam 5 true; mkParam 1 true; mkParam 2 true;
                     mkParam 3 true; mkParam 100 true; mkParam 101 true]
              (2 # 100000)%Q].
Proof.
  destruct (configure_optimizers Examples.mixer_modules
              (Examples.built Examples.args) (mkTrainer 100))
    as [e|cfg] eqn:E; [vm_compute in E; discriminate E|].
  exists cfg. split; [reflexivity|].
  pose proof (no_empty_group_handed Examples.mixer_modules
                (Examples.built Examples.args) (mkTrainer 100) cfg E) as H.
  simpl in H. destruct H as (_ & gs & Hgs & _ & Heq).
  rewrite Hgs, Heq. reflexivity.
Defined.

End OptimizerFacts.

(** ** The learning-rate schedule *)

Module ScheduleFacts.
Import Schedule Classifier OptimizerFacts.

Lemma make_lr_scheduler_warmup hp trainer :
  0 < hparams.warmup_epochs hp ->
  make_lr_scheduler hp trainer
  = SequentialLR
      [CosineAnnealingLR (max_epochs trainer - hparams.warmup_epochs hp);
       LinearLR (hparams.warmup_decay hp) (hparams.warmup_epochs hp)]
      [hparams.warmup_epochs hp].
Proof.
  intros H. unfold make_lr_scheduler.
  destruct (Z.ltb_spec 0 (hparams.warmup_epochs hp)); [reflexivity | lia].
Qed.

Lemma make_lr_scheduler_no_warmup hp trainer :
  hparams.warmup_epochs hp <= 0 ->
  make_lr_scheduler hp trainer
  = CosineAnnealingLR (max_epochs trainer - hparams.warmup_epochs hp).
Proof.
  intros H. unfold make_lr_scheduler.
  destruct (Z.ltb_spec 0 (hparams.warmup_epochs hp)); [lia | reflexivity].
Qed.

(** The phases of the schedule built when [warmup_epochs > 0]: the cosine
    scheduler is first in the list, so it governs the epochs before the
    milestone, and the linear ramp governs the epochs from the milestone on,
    counted from it. *)
Lemma composed_schedule_phases hp trainer e :
  0 < hparams.warmup_epochs hp ->
  (e < hparams.warmup_epochs hp ->
   governing (make_lr_scheduler hp trainer) e
   = Some (CosineAnnealingLR (max_epochs trainer - hparams.warmup_epochs hp), e))
  /\ (hparams.warmup_epochs hp <= e ->
      governing (make_lr_scheduler hp trainer) e
      = Some (LinearLR (hparams.warmup_decay hp) (hparams.warmup_epochs hp),
              e - hparams.warmup_epochs hp)).
Proof.
  intros Hw. rewrite make_lr_scheduler_warmup by exact Hw.
  unfold governing, SequentialLR_phase. simpl.
  destruct (Z.ltb_spec e (hparams.warmup_epochs hp)); split; intros; try lia;
    reflexivity.
Qed.

(** The linear ramp starts at its start factor and is at 1 once its own epoch
    count reaches [total_iters]. *)
Lemma LinearLR_factor_start s n : (LinearLR_factor s n 0 == s)%Q \/ n <= 0.
Proof.
  destruct (Z_lt_le_dec 0 n) as [Hn|Hn]; [left | right; exact Hn].
  unfold LinearLR_factor. rewrite Z.min_r by lia.
  unfold Qdiv. rewrite Qmult_0_l, Qmult_0_r, Qplus_0_r. reflexivity.
Qed.

Lemma LinearLR_factor_end s n e :
  0 < n -> n <= e -> (LinearLR_factor s n e == 1)%Q.
Proof.
  intros Hn He. unfold LinearLR_factor. rewrite Z.min_l by lia.
  assert (Hnz : ~ (inject_Z n == 0)%Q).
  { unfold Qeq. simpl. lia. }
  field. exact Hnz.
Qed.

(** C1, at the default configuration with 100 epochs. The schedule
    [configure_optimizers] returns lists the cosine scheduler before the
    linear ramp: the cosine scheduler governs epochs 0 to 4, the ramp starts
    at epoch 5, where the multiplier is [warmup_decay] and not 1, and it
    reaches 1 at epoch 10 only. *)
Theorem warmup_runs_after_cosine :
  exists cfg,
    configure_optimizers Examples.mixer_modules (Examples.built Examples.args)
      (mkTrainer 100) = inr cfg
    /\ cfg_lr_scheduler cfg
       = SequentialLR [CosineAnnealingLR 95; LinearLR (1 # 100)%Q 5] [5]
    /\ governing (cfg_lr_scheduler cfg) 0 = Some (CosineAnnealingLR 95, 0)
    /\ governing (cfg_lr_scheduler cfg) 4 = Some (CosineAnnealingLR 95, 4)
    /\ governing (cfg_lr_scheduler cfg) 5 = Some (LinearLR (1 # 100)%Q 5, 0)
    /\ governing (cfg_lr_scheduler cfg) 10 = Some (LinearLR (1 # 100)%Q 5, 5)
    /\ (forall cosine_factor,
          exists q5 q10,
            lr_multiplier cosine_factor (cfg_lr_scheduler cfg) 5 = Some q5
            /\ (q5 == 1 # 100)%Q /\ ~ (q5 == 1)%Q
            /\ lr_multiplier cosine_factor (cfg_lr_scheduler cfg) 10 = Some q10
            /\ (q10 == 1)%Q).
Proof.
  eexists. split; [vm_compute; reflexivity|].
  repeat (split; [reflexivity|]).
  intros cosine_factor. do 2 eexists.
  split; [reflexivity|]. split; [reflexivity|].
  split; [intros H; discriminate H|].
  split; reflexivity.
Qed.

(** C2. With [warmup_epochs] equal to 0, the schedule [configure_optimizers]
    returns is the cosine scheduler itself, of period [max_epochs]: no
    sequential scheduler and no ramp; over any number of epochs its
    multipliers are those of that cosine scheduler, each the cosine closed
    form at the epoch. *)
Theorem cosine_alone_without_warmup
    (mixer_modules : RandomCutMixMixUp -> Tree.Module)
    (self : ImageClassifier) (trainer : Trainer) (cfg : OptimizerConfig) :
  hparams.warmup_epochs (hparams_ self) = 0 ->
  configure_optimizers mixer_modules self trainer = inr cfg ->
  cfg_lr_scheduler cfg = CosineAnnealingLR (max_epochs trainer)
  /\ forall (cosine_factor : Z -> Z -> Q) (n : nat),
       trajectory cosine_factor (cfg_lr_scheduler cfg) n
       = trajectory cosine_factor (CosineAnnealingLR (max_epochs trainer)) n
       /\ trajectory cosine_factor (cfg_lr_scheduler cfg) n
          = map (fun e => Some (cosine_factor (max_epochs trainer) (Z.of_nat e)))
              (seq 0 n).
Proof.
  intros Hw H. apply configure_optimizers_inv in H.
  destruct H as (ctor & _ & _ & Hs).
  assert (E : cfg_lr_scheduler cfg = CosineAnnealingLR (max_epochs trainer)).
  { rewrite Hs, make_lr_scheduler_no_warmup by lia. rewrite Hw. f_equal. lia. }
  split; [exact E|]. intros cosine_factor n. rewrite E.
  split; reflexivity.
Qed.

Lemma cosine_alone_without_warmup_witness :
  exists cfg,
    configure_optimizers Examples.mixer_modules
      (Examples.built (hparams.with_warmup_epochs 0 Examples.args))
      (mkTrainer 100) = inr cfg
    /\ cfg_lr_scheduler cfg = CosineAnnealingLR 100.
Proof.
  destruct (configure_optimizers Examples.mixer_modules
              (Examples.built (hparams.with_warmup_epochs 0 Examples.args))
              (mkTrainer 100))
    as [e|cfg] eqn:E; [vm_compute in E; discriminate E|].
  exists cfg. split; [reflexivity|].
  exact (proj1 (cosine_alone_without_warmup Examples.mixer_modules
                  (Examples.built (hparams.with_warmup_epochs 0 Examples.args))
                  (mkTrainer 100) cfg eq_refl E)).
Defined.

End ScheduleFacts.

(** ** Construction *)

Module ConstructionFacts.
Import Tree Classifier Metrics Steps OptimizerFacts ScheduleFacts.

Section WithRegistry.

Variable backbones : gmap string hparams.Backbone.
Variable Linear : Z -> Z -> Module.

(** What a returned classifier is made of. *)
Lemma init_shape args self :
  __init__ backbones Linear args = inr self ->
  exists bb in_features transforms,
    resolve_backbone backbones (hparams.backbone args) = inr bb
    /\ last_item (hparams.get_out_channels bb) = inr in_features
    /\ nn_Linear Linear in_features (hparams.num_classes args)
       = inr (Linear in_features (hparams.num_classes args))
    /\ make_train_transforms (hparams.random_erasing_p args) = inr transforms
    /\ self
       = {| hparams_ := hparams.with_backbone (inr bb) args;
            backbone := script (hparams.body bb);
            classifier :=
              script (Sequential
                        [plain_leaf; plain_leaf;
                         Linear in_features (hparams.num_classes args)]);
            train_transforms := transforms;
            mixup_cutmix :=
              make_mixup_cutmix (hparams.num_classes args)
                (hparams.cutmix_alpha args) (hparams.mixup_alpha args) |}.
Proof.
  unfold __init__, bind.
  destruct (resolve_backbone backbones (hparams.backbone args)) as [e|bb]
    eqn:Hb; [discriminate|].
  destruct (last_item (hparams.get_out_channels bb)) as [e|x] eqn:Hl;
    [discriminate|].
  destruct (nn_Linear Linear x (hparams.num_classes args)) as [e|lin] eqn:Hlin;
    [discriminate|].
  destruct (make_train_transforms (hparams.random_erasing_p args))
    as [e|ts] eqn:Hts; [discriminate|].
  intros H. injection H as <-. exists bb, x, ts.
  assert (Hlin' : lin = Linear x (hparams.num_classes args)).
  { unfold nn_Linear in Hlin.
    destruct ((x <? 0) || (hparams.num_classes args <? 0));
      [discriminate Hlin | now injection Hlin]. }
  subst lin. repeat split; assumption || reflexivity.
Qed.

Lemma init_inv args self :
  __init__ backbones Linear args = inr self ->
  exists bb in_features,
    resolve_backbone backbones (hparams.backbone args) = inr bb
    /\ last_item (hparams.get_out_channels bb) = inr in_features
    /\ hparams_ self = hparams.with_backbone (inr bb) args
    /\ mixup_cutmix self
       = make_mixup_cutmix (hparams.num_classes args)
           (hparams.cutmix_alpha args) (hparams.mixup_alpha args).
Proof.
  intros H. apply init_shape in H.
  destruct H as (bb & x & ts & Hb & Hl & _ & _ & ->). exists bb, x.
  repeat split; assumption || reflexivity.
Qed.

Lemma make_mixup_cutmix_spec n c m :
  ((0 < m /\ 0 < c)%Q ->
   make_mixup_cutmix n c m = Some (mkRandomCutMixMixUp n c m))
  /\ (~ (0 < m /\ 0 < c)%Q -> make_mixup_cutmix n c m = None).
Proof.
  unfold make_mixup_cutmix.
  destruct (Qlt_le_dec 0 c) as [Hc|Hc], (Qlt_le_dec 0 m) as [Hm|Hm];
    split; intros H; try reflexivity;
    try (exfalso; apply H; split; assumption);
    destruct H as [H1 H2];
    try (exfalso; exact (Qle_not_lt _ _ Hm H1));
    exfalso; exact (Qle_not_lt _ _ Hc H2).
Qed.

(** C3. For a constructed classifier: when both alphas are positive the
    mixer is built from [(num_classes, cutmix_alpha, mixup_alpha)] and the
    mixing stage of [training_step] applies it to the transformed images and
    the labels; otherwise no mixer is built and the stage returns the
    transformed images and the integer labels as they are, leaving the
    environment and the log untouched. *)
Theorem mixer_iff_both_alphas_positive (args : hparams.t)
    (self : ImageClassifier) :
  __init__ backbones Linear args = inr self ->
  ((0 < hparams.mixup_alpha args /\ 0 < hparams.cutmix_alpha args)%Q ->
   mixup_cutmix self
   = Some (mkRandomCutMixMixUp (hparams.num_classes args)
             (hparams.cutmix_alpha args) (hparams.mixup_alpha args))
   /\ forall (Images Env : Type)
        (mixer : RandomCutMixMixUp -> Images -> list Z -> Env ->
                 (Images * list (list Q)) * Env)
        (images : Images) (labels : list Z) (w : World Env),
        mixed_sample mixer self images labels w
        = (inr (fst (fst (mixer (mkRandomCutMixMixUp (hparams.num_classes args)
                                   (hparams.cutmix_alpha args)
                                   (hparams.mixup_alpha args))
                            images labels (env w))),
                Soft (snd (fst (mixer (mkRandomCutMixMixUp
                                         (hparams.num_classes args)
                                         (hparams.cutmix_alpha args)
                                         (hparams.mixup_alpha args))
                                  images labels (env w))))),
           mkWorld (snd (mixer (mkRandomCutMixMixUp (hparams.num_classes args)
                                  (hparams.cutmix_alpha args)
                                  (hparams.mixup_alpha args))
                           images labels (env w)))
                   (logged w)))
  /\ (~ (0 < hparams.mixup_alpha args /\ 0 < hparams.cutmix_alpha args)%Q ->
      mixup_cutmix self = None
      /\ forall (Images Env : Type)
           (mixer : RandomCutMixMixUp -> Images -> list Z -> Env ->
                    (Images * list (list Q)) * Env)
           (images : Images) (labels : list Z) (w : World Env),
           mixed_sample mixer self images labels w
           = (inr (images, Hard labels), w)).
Proof.
  intros Hinit. apply init_inv in Hinit.
  destruct Hinit as (bb & x & _ & _ & _ & Hmc).
  destruct (make_mixup_cutmix_spec (hparams.num_classes args)
              (hparams.cutmix_alpha args) (hparams.mixup_alpha args))
    as [Hpos Hneg].
  split; intros H.
  - rewrite Hmc, (Hpos H). split; [reflexivity|].
    intros Images Env mixer images labels w.
    unfold mixed_sample. rewrite Hmc, (Hpos H).
    unfold mbind, lift_env, ret, ok.
    destruct (mixer _ images labels (env w)) as [[i l] e]. reflexivity.
  - rewrite Hmc, (Hneg H). split; [reflexivity|].
    intros Images Env mixer images labels w.
    unfold mixed_sample. rewrite Hmc, (Hneg H). reflexivity.
Qed.

(** C6. A name that the registry does not bind makes the constructor raise
    the [KeyError] of the failed lookup (the error the specification calls
    UnknownVariantError): no classifier object is returned, so no forward
    pass can follow. *)
Theorem unknown_backbone_name_raises (args : hparams.t) (name : string) :
  hparams.backbone args = inl name ->
  backbones !! name = None ->
  __init__ backbones Linear args = inl (KeyError name).
Proof.
  intros Hb Hn. unfold __init__, resolve_backbone. rewrite Hb, Hn. reflexivity.
Qed.

End WithRegistry.

Lemma mixer_iff_both_alphas_positive_witness :
  __init__ Examples.registry Examples.linear Examples.args
  = inr (Examples.built Examples.args)
  /\ mixup_cutmix (Examples.built Examples.args)
     = Some (mkRandomCutMixMixUp 10 1%Q (2 # 10)%Q)
  /\ mixed_sample Examples.mixer_stub (Examples.built Examples.args)
       [1%Q] [3; 4] (mkWorld 0%nat [])
     = (inr ([1%Q], Soft [[]; []]), mkWorld 1%nat []).
Proof.
  split; [reflexivity|].
  destruct (mixer_iff_both_alphas_positive Examples.registry Examples.linear
              Examples.args (Examples.built Examples.args) eq_refl)
    as [Hpos _].
  destruct Hpos as [Hmc Hstage]; [split; reflexivity|].
  split; [exact Hmc|].
  rewrite Hstage. reflexivity.
Defined.

Lemma unknown_backbone_name_raises_witness :
  Examples.registry !! "not_a_model" = None
  /\ __init__ Examples.registry Examples.linear
       (Examples.args_by_name "not_a_model")
     = inl (KeyError "not_a_model").
Proof.
  split; [reflexivity|].
  apply unknown_backbone_name_raises; reflexivity.
Defined.

(** The registry resolves a bound name; the stored configuration holds the
    backbone object in place of the name. *)
Example known_backbone_name_constructs :
  __init__ Examples.registry Examples.linear (Examples.args_by_name "resnet18")
  = inr (Examples.built
           (hparams.with_backbone (inr Examples.resnet18)
              (Examples.args_by_name "resnet18"))).
Proof. reflexivity. Qed.

End ConstructionFacts.

(** ** Epochs are not validated *)

Module EpochFacts.
Import Tree Schedule Classifier OptimizerFacts ScheduleFacts ConstructionFacts.

(** C7, refuted at a configuration with [warmup_epochs] 10 trained for 5
    epochs: the constructor returns the classifier, and
    [configure_optimizers] returns a schedule whose cosine scheduler has
    [T_max] equal to -5. *)
Lemma warmup_beyond_total_is_accepted :
  hparams.warmup_epochs (hparams.with_warmup_epochs 10 Examples.args)
  >= max_epochs (mkTrainer 5)
  /\ __init__ Examples.registry Examples.linear
       (hparams.with_warmup_epochs 10 Examples.args)
     = inr (Examples.built (hparams.with_warmup_epochs 10 Examples.args))
  /\ exists cfg,
       configure_optimizers Examples.mixer_modules
         (Examples.built (hparams.with_warmup_epochs 10 Examples.args))
         (mkTrainer 5) = inr cfg
       /\ cfg_lr_scheduler cfg
          = SequentialLR [CosineAnnealingLR (-5); LinearLR (1 # 100)%Q 10] [10].
Proof.
  split; [simpl; lia|]. split; [reflexivity|].
  eexists. split; [vm_compute; reflexivity|]. reflexivity.
Qed.

(** C7 as the code has it. A configuration with
    [warmup_epochs >= max_epochs] is not rejected at construction: the
    constructor does not read [warmup_epochs], so that its outcome, error or
    classifier, is the same for every value of it, and it does not know
    [max_epochs]. Whenever [configure_optimizers] then returns, the cosine
    scheduler of the schedule it returns has
    [T_max = max_epochs - warmup_epochs], which is zero or negative. *)
Theorem epochs_are_not_validated
    (backbones : gmap string hparams.Backbone) (Linear : Z -> Z -> Module)
    (mixer_modules : RandomCutMixMixUp -> Module)
    (args : hparams.t) (trainer : Trainer) :
  hparams.warmup_epochs args >= max_epochs trainer ->
  (forall w,
     __init__ backbones Linear (hparams.with_warmup_epochs w args)
     = match __init__ backbones Linear args with
       | inl e => inl e
       | inr self =>
           inr (set_hparams (hparams.with_warmup_epochs w (hparams_ self)) self)
       end)
  /\ forall self cfg,
       __init__ backbones Linear args = inr self ->
       configure_optimizers mixer_modules self trainer = inr cfg ->
       exists T_max,
         T_max = max_epochs trainer - hparams.warmup_epochs args
         /\ T_max <= 0
         /\ (cfg_lr_scheduler cfg = CosineAnnealingLR T_max
             \/ cfg_lr_scheduler cfg
                = SequentialLR
                    [CosineAnnealingLR T_max;
                     LinearLR (hparams.warmup_decay args)
                       (hparams.warmup_epochs args)]
                    [hparams.warmup_epochs args]).
Proof.
  intros Hge. split.
  - intros w. unfold __init__, bind. simpl.
    destruct (resolve_backbone backbones (hparams.backbone args)) as [e|bb];
      [reflexivity|].
    destruct (last_item (hparams.get_out_channels bb)) as [e|x]; [reflexivity|].
    destruct (nn_Linear Linear x (hparams.num_classes args)) as [e|lin];
      [reflexivity|].
    destruct (make_train_transforms (hparams.random_erasing_p args)) as [e|ts];
      reflexivity.
  - intros self cfg Hinit H. apply init_inv in Hinit.
    destruct Hinit as (bb & x & _ & _ & Hhp & _).
    apply configure_optimizers_inv in H.
    destruct H as (ctor & _ & _ & Hs). rewrite Hhp in Hs.
    change (make_lr_scheduler (hparams.with_backbone (inr bb) args) trainer)
      with (make_lr_scheduler args trainer) in Hs.
    exists (max_epochs trainer - hparams.warmup_epochs args).
    split; [reflexivity|]. split; [lia|].
    destruct (Z_lt_le_dec 0 (hparams.warmup_epochs args)) as [Hw|Hw].
    + right. rewrite Hs. now apply make_lr_scheduler_warmup.
    + left. rewrite Hs. now apply make_lr_scheduler_no_warmup.
Qed.

Lemma epochs_are_not_validated_witness :
  hparams.warmup_epochs (hparams.with_warmup_epochs 10 Examples.args)
  >= max_epochs (mkTrainer 5)
  /\ __init__ Examples.registry Examples.linear
       (hparams.with_warmup_epochs 0
          (hparams.with_warmup_epochs 10 Examples.args))
     = inr (Examples.built (hparams.with_warmup_epochs 0 Examples.args))
  /\ exists cfg T_max,
       configure_optimizers Examples.mixer_modules
         (Examples.built (hparams.with_warmup_epochs 10 Examples.args))
         (mkTrainer 5) = inr cfg
       /\ T_max = -5
       /\ cfg_lr_scheduler cfg
          = SequentialLR
              [CosineAnnealingLR T_max; LinearLR (1 # 100)%Q 10] [10].
Proof.
  assert (Hge : hparams.warmup_epochs
                  (hparams.with_warmup_epochs 10 Examples.args)
                >= max_epochs (mkTrainer 5)) by (simpl; lia).
  split; [exact Hge|].
  destruct (epochs_are_not_validated Examples.registry Examples.linear
              Examples.mixer_modules
              (hparams.with_warmup_epochs 10 Examples.args) (mkTrainer 5) Hge)
    as [Hinit Hconf].
  split; [rewrite (Hinit 0); reflexivity|].
  destruct (configure_optimizers Examples.mixer_modules
              (Examples.built (hparams.with_warmup_epochs 10 Examples.args))
              (mkTrainer 5))
    as [e|cfg] eqn:E; [vm_compute in E; discriminate E|].
  destruct (Hconf _ cfg eq_refl E) as (T & HT & _ & [Hs|Hs]).
  - exfalso. apply configure_optimizers_inv in E.
    destruct E as (_ & _ & _ & E). rewrite E in Hs. discriminate Hs.
  - exists cfg, T. split; [reflexivity|]. split; [exact HT | exact Hs].
Defined.

End EpochFacts.

(** ** The steps *)

Module StepFacts.
Import Tree Classifier Metrics Steps.

Lemma argmax_from_spec row : forall best_i best i,
  (best_i < i)%nat ->
  let k := argmax_from best_i best i row in
  (k = best_i \/ (i <= k)%nat)
  /\ exists x,
       (k = best_i /\ x = best
        \/ (i <= k)%nat /\ nth_error row (k - i) = Some x)
       /\ (best <= x)%Q
       /\ (forall j y, nth_error row j = Some y -> (y <= x)%Q)
       /\ (forall j y, (i + j < k)%nat -> nth_error row j = Some y -> (y < x)%Q)
       /\ ((best_i < k)%nat -> (best < x)%Q).
Proof.
  induction row as [|a row IH]; intros best_i best i Hlt; simpl.
  - split; [now left|]. exists best.
    split; [now left|]. split; [apply Qle_refl|].
    split; [intros [|j] y; discriminate|].
    split; [intros [|j] y; discriminate|]. lia.
  - destruct (Qlt_le_dec best a) as [Hba|Hab].
    + destruct (IH i a (S i) (Nat.lt_succ_diag_r i)) as [Hk (x & Hx & Hax & Hall & Hbefore & Hstrict)].
      set (k := argmax_from i a (S i) row) in *.
      split; [right; lia|]. exists x.
      split.
      { right. split; [lia|].
        destruct Hx as [[-> ->]|[Hge Hnth]].
        - rewrite Nat.sub_diag. reflexivity.
        - replace (k - i)%nat with (S (k - S i)) by lia. exact Hnth. }
      split; [apply Qlt_le_weak; eapply Qlt_le_trans; eassumption|].
      split.
      { intros [|j] y Hy; [injection Hy as <-; exact Hax | eapply Hall; eassumption]. }
      split.
      { intros [|j] y Hj Hy.
        - injection Hy as <-.
          apply Hstrict. lia.
        - apply (Hbefore j y); [lia | exact Hy]. }
      intros _. eapply Qlt_le_trans; eassumption.
    + destruct (IH best_i best (S i) (Nat.lt_lt_succ_r _ _ Hlt))
        as [Hk (x & Hx & Hbx & Hall & Hbefore & Hstrict)].
      set (k := argmax_from best_i best (S i) row) in *.
      split; [destruct Hk; [now left | right; lia]|]. exists x.
      split.
      { destruct Hx as [[Hkb ->]|[Hge Hnth]]; [now left|].
        right. split; [lia|].
        replace (k - i)%nat with (S (k - S i)) by lia. exact Hnth. }
      split; [exact Hbx|].
      split.
      { intros [|j] y Hy; [injection Hy as <-; eapply Qle_trans; eassumption
                          | eapply Hall; eassumption]. }
      split.
      { intros [|j] y Hj Hy.
        - injection Hy as <-. eapply Qle_lt_trans; [exact Hab|].
          apply Hstrict. lia.
        - apply (Hbefore j y); [lia | exact Hy]. }
      exact Hstrict.
Qed.

Lemma argmax_is_first_max row k : argmax row = inr k -> is_first_max row k.
Proof.
  destruct row as [|x0 r]; simpl; [discriminate|].
  intros H. injection H as <-.
  destruct (argmax_from_spec r 0%nat x0 1%nat Nat.lt_0_1)
    as [Hk (x & Hx & Hbx & Hall & Hbefore & Hstrict)].
  set (k := argmax_from 0 x0 1 r) in *.
  split; [lia|]. exists x. rewrite Nat2Z.id.
  split.
  { destruct Hx as [[-> ->]|[Hge Hnth]]; [reflexivity|].
    destruct k as [|k]; [lia|]. simpl.
    replace (S k - 1)%nat with k in Hnth by lia. exact Hnth. }
  split.
  { intros [|j] y Hy; [injection Hy as <-; exact Hbx | eapply Hall; eassumption]. }
  intros [|j] y Hj Hy.
  - injection Hy as <-. apply Hstrict. exact Hj.
  - apply (Hbefore j y); [lia | exact Hy].
Qed.

Lemma is_first_max_unique row k k' :
  is_first_max row k -> is_first_max row k' -> k = k'.
Proof.
  intros [Hk (x & Hx & Hmax & Hfirst)] [Hk' (x' & Hx' & Hmax' & Hfirst')].
  destruct (Z.lt_trichotomy k k') as [Hlt|[Heq|Hgt]]; [|exact Heq|]; exfalso.
  - assert (Hn : (Z.to_nat k < Z.to_nat k')%nat) by lia.
    pose proof (Hfirst' _ _ Hn Hx) as H1.
    pose proof (Hmax _ _ Hx') as H2.
    exact (Qlt_not_le _ _ H1 H2).
  - assert (Hn : (Z.to_nat k' < Z.to_nat k)%nat) by lia.
    pose proof (Hfirst _ _ Hn Hx') as H1.
    pose proof (Hmax' _ _ Hx) as H2.
    exact (Qlt_not_le _ _ H1 H2).
Qed.

Lemma argmax_rows_spec logits :
  Forall (fun row => row <> []) logits ->
  exists preds,
    argmax_rows logits = inr preds /\ Forall2 is_first_max logits preds.
Proof.
  induction 1 as [|row rest Hrow _ IH]; simpl.
  - exists []. split; [reflexivity | constructor].
  - destruct IH as (ks & Hks & Hall).
    destruct row as [|x0 r]; [contradiction|].
    destruct (argmax (x0 :: r)) as [e|k] eqn:Hk; [discriminate Hk|].
    exists (k :: ks). unfold bind. rewrite Hks.
    split; [reflexivity|]. constructor; [|exact Hall].
    now apply argmax_is_first_max.
Qed.

Lemma tensor_sum_from t acc :
  fold_left (fun a (b : bool) => a + (if b then 1 else 0)) t acc
  = acc + tensor_sum t.
Proof.
  unfold tensor_sum. revert acc.
  induction t as [|b t IH]; intros acc; [simpl; lia|].
  cbn [fold_left]. rewrite (IH (acc + _)), (IH (0 + _)). lia.
Qed.

Lemma tensor_sum_count labels preds :
  tensor_sum (tensor_eq labels preds) = Z.of_nat (count_equal labels preds).
Proof.
  revert preds. induction labels as [|l labels IH]; intros [|p preds];
    try reflexivity.
  unfold tensor_eq, tensor_sum. simpl. rewrite tensor_sum_from.
  fold (tensor_eq labels preds). rewrite IH.
  destruct (Z.eqb_spec l p), (Z.eq_dec l p); try contradiction; lia.
Qed.

(** The accuracy of a batch whose rows of logits are not empty. *)
Lemma accuracy_spec logits labels :
  Forall (fun row => row <> []) logits ->
  exists preds,
    Forall2 is_first_max logits preds
    /\ accuracy logits labels
       = inr (true_divide (Z.of_nat (count_equal labels preds))
                (Z.of_nat (length labels))).
Proof.
  intros Hrows. destruct (argmax_rows_spec logits Hrows) as (preds & Hp & Hall).
  exists preds. split; [exact Hall|].
  unfold accuracy, bind. rewrite Hp, tensor_sum_count. reflexivity.
Qed.

Section WithOperations.

Variables Images Env : Type.
Variable apply_transform : Transform -> Images -> Env -> Images * Env.
Variable mixer :
  RandomCutMixMixUp -> Images -> list Z -> Env -> (Images * list (list Q)) * Env.
Variable forward : Module -> Module -> Images -> Env -> list (list Q) * Env.
Variable cross_entropy : list (list Q) -> Labels -> Q -> fval.

(** The transforms and the mixing stage cannot raise and do not log. *)
Lemma apply_transforms_returns ts images w :
  exists images1 e1,
    apply_transforms apply_transform ts images w
    = (inr images1, mkWorld e1 (logged w)).
Proof.
  revert images w. induction ts as [|t ts IH]; intros images [e l]; simpl.
  - now exists images, e.
  - unfold mbind, lift_env. simpl.
    destruct (apply_transform t images e) as [images' e'].
    destruct (IH images' (mkWorld e' l)) as (i1 & e1 & H).
    exists i1, e1. exact H.
Qed.

Lemma mixed_sample_returns self images labels w :
  exists il e1,
    mixed_sample mixer self images labels w = (inr il, mkWorld e1 (logged w)).
Proof.
  unfold mixed_sample. destruct (mixup_cutmix self) as [mc|].
  - unfold mbind, lift_env, ret.
    destruct (mixer mc images labels (env w)) as [r e1].
    now exists (fst r, Soft (snd r)), e1.
  - destruct w as [e l]. now exists (images, Hard labels), e.
Qed.

(** What [training_step] computes, given the outcome of each of its calls. *)
Lemma training_step_unfold self images labels idx w images1 w1 il w2 logits e3 :
  apply_transforms apply_transform (train_transforms self) images w
  = (inr images1, w1) ->
  mixed_sample mixer self images1 labels w1 = (inr il, w2) ->
  forward (backbone self) (classifier self) (fst il) (env w2) = (logits, e3) ->
  training_step apply_transform mixer forward cross_entropy self
    (images, labels) idx w
  = (inr (cross_entropy logits (snd il) 0%Q),
     mkWorld e3 (logged w2 ++ [("train/loss", cross_entropy logits (snd il) 0%Q)])).
Proof.
  intros H1 H2 H3. unfold training_step, mbind.
  rewrite H1, H2. unfold lift_env, call. rewrite H3. reflexivity.
Qed.

(** [training_step] never reads [self.hparams]. *)
Lemma training_step_ignores_hparams self hp batch idx w :
  training_step apply_transform mixer forward cross_entropy
    (set_hparams hp self) batch idx w
  = training_step apply_transform mixer forward cross_entropy self batch idx w.
Proof. destruct batch as [images labels]. reflexivity. Qed.

(** What [validation_step] computes, given the logits of the batch. *)
Lemma validation_step_unfold self images labels idx w logits e1 :
  forward (backbone self) (classifier self) images (env w) = (logits, e1) ->
  validation_step forward cross_entropy self (images, labels) idx w
  = let loss :=
      cross_entropy logits (Hard labels)
        (hparams.label_smoothing (hparams_ self)) in
    match accuracy logits labels with
    | inr acc =>
        (inr tt, mkWorld e1 (logged w ++ [("val/loss", loss); ("val/acc", acc)]))
    | inl e => (inl e, mkWorld e1 (logged w ++ [("val/loss", loss)]))
    end.
Proof.
  intros H. unfold validation_step, mbind, lift_env, call. rewrite H.
  unfold log, lift_result. simpl.
  destruct (accuracy logits labels) as [e|acc]; simpl; [reflexivity|].
  rewrite <- app_assoc. reflexivity.
Qed.

End WithOperations.

Section StepClaims.

Variables Images Env : Type.
Variable apply_transform : Transform -> Images -> Env -> Images * Env.
Variable mixer :
  RandomCutMixMixUp -> Images -> list Z -> Env -> (Images * list (list Q)) * Env.
Variable forward : Module -> Module -> Images -> Env -> list (list Q) * Env.
Variable cross_entropy : list (list Q) -> Labels -> Q -> fval.

(** C8. The loss [training_step] returns and logs is the cross entropy of the
    logits against the labels the mixing stage returned (integer or soft),
    with a label smoothing of 0, and it does not change when
    [label_smoothing] is set to another value; the loss [validation_step]
    logs is the cross entropy of the logits against the integer labels with
    the configured [label_smoothing]. *)
Theorem smoothing_in_validation_only (self : ImageClassifier)
    (images : Images) (labels : list Z) (idx : Z) (w : World Env) :
  (forall images1 w1 il w2 logits e3,
     apply_transforms apply_transform (train_transforms self) images w
     = (inr images1, w1) ->
     mixed_sample mixer self images1 labels w1 = (inr il, w2) ->
     forward (backbone self) (classifier self) (fst il) (env w2) = (logits, e3) ->
     training_step apply_transform mixer forward cross_entropy self
       (images, labels) idx w
     = (inr (cross_entropy logits (snd il) 0%Q),
        mkWorld e3
          (logged w2 ++ [("train/loss", cross_entropy logits (snd il) 0%Q)])))
  /\ (forall s : Q,
        training_step apply_transform mixer forward cross_entropy
          (set_hparams (hparams.with_label_smoothing s (hparams_ self)) self)
          (images, labels) idx w
        = training_step apply_transform mixer forward cross_entropy self
            (images, labels) idx w)
  /\ (forall logits e1,
        forward (backbone self) (classifier self) images (env w) = (logits, e1) ->
        validation_step forward cross_entropy self (images, labels) idx w
        = let loss :=
            cross_entropy logits (Hard labels)
              (hparams.label_smoothing (hparams_ self)) in
          match accuracy logits labels with
          | inr acc =>
              (inr tt,
               mkWorld e1 (logged w ++ [("val/loss", loss); ("val/acc", acc)]))
          | inl e => (inl e, mkWorld e1 (logged w ++ [("val/loss", loss)]))
          end).
Proof.
  split; [|split].
  - intros images1 w1 il w2 logits e3. apply training_step_unfold.
  - intros s. apply training_step_ignores_hparams.
  - intros logits e1. apply validation_step_unfold.
Qed.

(** C9. For a validation batch whose logits have one non-empty row per
    label, the accuracy [validation_step] logs is the number of samples whose
    label is the index of the first maximal logit of the row, divided by the
    number of labels (for the empty batch, the not-a-number that 0/0 is).
    For logits [[2,1],[0,3]] and labels [0,1] the predictions are [0,1] and
    the accuracy is 1. *)
Theorem top1_accuracy_is_correct_fraction :
  (forall (self : ImageClassifier) (images : Images) (labels : list Z)
          (idx : Z) (w : World Env) logits e1,
     forward (backbone self) (classifier self) images (env w) = (logits, e1) ->
     length logits = length labels ->
     Forall (fun row => row <> []) logits ->
     exists preds acc,
       Forall2 is_first_max logits preds
       /\ validation_step forward cross_entropy self (images, labels) idx w
          = (inr tt,
             mkWorld e1
               (logged w
                ++ [("val/loss",
                     cross_entropy logits (Hard labels)
                       (hparams.label_smoothing (hparams_ self)));
                    ("val/acc", acc)]))
       /\ (labels = [] -> acc = NaN)
       /\ (labels <> [] ->
           exists q,
             acc = Fin q
             /\ (q == inject_Z (Z.of_nat (count_equal labels preds))
                      / inject_Z (Z.of_nat (length labels)))%Q))
  /\ argmax_rows [[2; 1]; [0; 3]]%Q = inr [0; 1]
  /\ exists q,
       accuracy [[2; 1]; [0; 3]]%Q [0; 1] = inr (Fin q) /\ (q == 1)%Q.
Proof.
  split; [|split; [reflexivity | eexists; split; reflexivity]].
  intros self images labels idx w logits e1 Hf _ Hrows.
  destruct (accuracy_spec logits labels Hrows) as (preds & Hall & Hacc).
  exists preds, (true_divide (Z.of_nat (count_equal labels preds))
                   (Z.of_nat (length labels))).
  split; [exact Hall|]. split.
  - rewrite (validation_step_unfold _ _ forward cross_entropy self images
               labels idx w logits e1 Hf).
    simpl. rewrite Hacc. reflexivity.
  - split.
    + intros ->. reflexivity.
    + intros Hne. destruct labels as [|l labels]; [contradiction|].
      unfold true_divide. cbn [length]. rewrite Nat2Z.inj_succ.
      destruct (Z.eqb_spec (Z.succ (Z.of_nat (length labels))) 0) as [H0|H0];
        [lia|].
      eexists. split; [reflexivity|]. apply Qeq_refl.
Qed.

End StepClaims.

Lemma smoothing_in_validation_only_witness :
  training_step Examples.transform_stub Examples.mixer_stub Examples.forward_stub
    Examples.cross_entropy_stub (Examples.built Examples.args)
    ([1%Q], [0; 1]) 0 (mkWorld 0%nat [])
  = (inr (Fin 0), mkWorld 7%nat [("train/loss", Fin 0)])
  /\ validation_step Examples.forward_stub Examples.cross_entropy_stub
       (Examples.built Examples.args) ([1%Q], [0; 1]) 0 (mkWorld 0%nat [])
     = (inr tt,
        mkWorld 1%nat [("val/loss", Fin (1 # 10)); ("val/acc", Fin (2 # 2))]).
Proof.
  destruct (smoothing_in_validation_only (list Q) nat Examples.transform_stub
              Examples.mixer_stub Examples.forward_stub
              Examples.cross_entropy_stub (Examples.built Examples.args)
              [1%Q] [0; 1] 0 (mkWorld 0%nat []))
    as (Htrain & _ & Hval).
  split.
  - eapply eq_trans; [eapply Htrain; reflexivity | reflexivity].
  - eapply eq_trans; [eapply Hval; reflexivity | reflexivity].
Defined.

Lemma top1_accuracy_is_correct_fraction_witness :
  exists preds q,
    Forall2 is_first_max [[2; 1]; [0; 3]]%Q preds
    /\ validation_step Examples.forward_stub Examples.cross_entropy_stub
         (Examples.built Examples.args) ([1%Q], [0; 1]) 0 (mkWorld 0%nat [])
       = (inr tt,
          mkWorld 1%nat [("val/loss", Fin (1 # 10)); ("val/acc", Fin q)])
    /\ (q == inject_Z (Z.of_nat (count_equal [0%Z; 1%Z] preds)) / 2)%Q.
Proof.
  destruct (proj1 (top1_accuracy_is_correct_fraction (list Q) nat
                     Examples.forward_stub Examples.cross_entropy_stub)
              (Examples.built Examples.args) [1%Q] [0; 1] 0 (mkWorld 0%nat [])
              [[2; 1]; [0; 3]]%Q 1%nat eq_refl eq_refl
              ltac:(repeat constructor; discriminate))
    as (preds & acc & Hall & Hstep & _ & Hfrac).
  destruct (Hfrac ltac:(discriminate)) as (q & -> & Hq).
  exists preds, q. split; [exact Hall|]. split; [exact Hstep | exact Hq].
Defined.

End StepFacts.

(** ** More on what the optimizer is handed *)

Module OptimizerMore.
Import Tree TreeFacts Classifier OptimizerFacts.

(** The four names of [_optimizers]. *)
Lemma optimizers_lookup (name : string) :
  _optimizers !! name
  = if decide ("SGD" = name) then Some (mkCtor SGD (Some (9 # 10)%Q))
    else if decide ("Adam" = name) then Some (mkCtor Adam None)
    else if decide ("AdamW" = name) then Some (mkCtor AdamW None)
    else if decide ("RMSprop" = name) then Some (mkCtor RMSprop (Some (9 # 10)%Q))
    else None.
Proof.
  unfold _optimizers. simpl. rewrite !lookup_insert.
  repeat case_decide; try reflexivity; apply lookup_empty.
Qed.

Lemma optimizers_known (name : string) :
  is_Some (_optimizers !! name)
  <-> In name ["SGD"; "Adam"; "AdamW"; "RMSprop"].
Proof.
  rewrite optimizers_lookup. simpl. split.
  - repeat case_decide; intros Hs; auto 6. destruct Hs as [? Hs]. discriminate Hs.
  - intros Hs. repeat case_decide; eauto. exfalso. intuition congruence.
Qed.

(** X1. [configure_optimizers] raises the [KeyError] of the failed lookup in
    [_optimizers] for every optimizer name other than SGD, Adam, AdamW and
    RMSprop, and it returns only for one of these four, with an optimizer
    built by the entry of that name. The constructor does not read the name:
    its outcome, error or classifier, is the same for every name, so that an
    unknown name is found only when [configure_optimizers] runs. *)
Theorem optimizer_name_checked_late
    (backbones : gmap string hparams.Backbone) (Linear : Z -> Z -> Module)
    (mixer_modules : RandomCutMixMixUp -> Module)
    (self : ImageClassifier) (trainer : Trainer) :
  (~ In (hparams.optimizer (hparams_ self)) ["SGD"; "Adam"; "AdamW"; "RMSprop"] ->
   configure_optimizers mixer_modules self trainer
   = inl (KeyError (hparams.optimizer (hparams_ self))))
  /\ (forall cfg,
        configure_optimizers mixer_modules self trainer = inr cfg ->
        In (hparams.optimizer (hparams_ self))
          ["SGD"; "Adam"; "AdamW"; "RMSprop"]
        /\ _optimizers !! hparams.optimizer (hparams_ self)
           = Some (opt_ctor (cfg_optimizer cfg)))
  /\ (forall args name,
        __init__ backbones Linear (Variants.with_optimizer name args)
        = match __init__ backbones Linear args with
          | inl e => inl e
          | inr built =>
              inr (set_hparams
                     (Variants.with_optimizer name (hparams_ built)) built)
          end).
Proof.
  split; [|split].
  - intros H. unfold configure_optimizers.
    destruct (_optimizers !! hparams.optimizer (hparams_ self)) as [ctor|] eqn:E;
      [|reflexivity].
    exfalso. apply H, optimizers_known. now exists ctor.
  - intros cfg H. apply configure_optimizers_inv in H.
    destruct H as (ctor & Hc & Hopt & _). split.
    + apply optimizers_known. now exists ctor.
    + rewrite Hopt. exact Hc.
  - intros args name. unfold __init__, bind. simpl.
    destruct (resolve_backbone backbones (hparams.backbone args)) as [e|bb];
      [reflexivity|].
    destruct (last_item (hparams.get_out_channels bb)) as [e|x]; [reflexivity|].
    destruct (nn_Linear Linear x (hparams.num_classes args)) as [e|lin];
      [reflexivity|].
    destruct (make_train_transforms (hparams.random_erasing_p args)) as [e|ts];
      reflexivity.
Qed.

Lemma optimizer_name_checked_late_witness :
  __init__ Examples.registry Examples.linear
    (Variants.with_optimizer "LAMB" Examples.args)
  = inr (Examples.built (Variants.with_optimizer "LAMB" Examples.args))
  /\ configure_optimizers Examples.mixer_modules
       (Examples.built (Variants.with_optimizer "LAMB" Examples.args))
       (mkTrainer 100)
     = inl (KeyError "LAMB")
  /\ exists cfg,
       configure_optimizers Examples.mixer_modules
         (Examples.built (Variants.with_optimizer "AdamW" Examples.args))
         (mkTrainer 100) = inr cfg
       /\ opt_ctor (cfg_optimizer cfg) = mkCtor AdamW None.
Proof.
  split.
  - rewrite (proj2 (proj2 (optimizer_name_checked_late Examples.registry
                             Examples.linear Examples.mixer_modules
                             (Examples.built Examples.args) (mkTrainer 100)))
               Examples.args "LAMB").
    reflexivity.
  - split.
    + apply (proj1 (optimizer_name_checked_late Examples.registry
                      Examples.linear Examples.mixer_modules
                      (Examples.built
                         (Variants.with_optimizer "LAMB" Examples.args))
                      (mkTrainer 100))).
      simpl. intros H. repeat (destruct H as [H|H]; [discriminate H|]). exact H.
    + destruct (configure_optimizers Examples.mixer_modules
                  (Examples.built
                     (Variants.with_optimizer "AdamW" Examples.args))
                  (mkTrainer 100))
        as [e|cfg] eqn:E; [vm_compute in E; discriminate E|].
      exists cfg. split; [reflexivity|].
      destruct (proj1 (proj2 (optimizer_name_checked_late Examples.registry
                                Examples.linear Examples.mixer_modules
                                (Examples.built
                                   (Variants.with_optimizer "AdamW"
                                      Examples.args))
                                (mkTrainer 100))) cfg E) as [_ Hc].
      vm_compute in Hc. now injection Hc.
Defined.

End OptimizerMore.

(** ** More on parameter grouping *)

Module GroupingMore.
Import Tree TreeFacts Classifier OptimizerFacts.

Lemma flat_map_params_kept (n o : list Param) (a b : Q) :
  flat_map params
    ((if nonempty n then [mkGroup n a] else [])
     ++ (if nonempty o then [mkGroup o b] else []))
  = n ++ o.
Proof.
  destruct n as [|x n], o as [|y o]; simpl; rewrite ?app_nil_r; reflexivity.
Qed.

Lemma trainable_all_frozen l :
  (forall p, In p l -> requires_grad p = false) -> trainable l = [].
Proof.
  induction l as [|p l IH]; intros H; simpl; [reflexivity|].
  rewrite (H p (or_introl eq_refl)). apply IH.
  intros q Hq. apply H. now right.
Qed.

Lemma parts_without_norm_leaf ms :
  (forall m, In m ms -> is_leaf m = true -> is_norm m = false) ->
  flat_map norm_part ms = []
  /\ flat_map other_part ms = flat_map (fun m => trainable (_parameters m)) ms.
Proof.
  induction ms as [|m ms IH]; intros H; simpl; [split; reflexivity|].
  destruct IH as [IHn IHo]; [intros m' Hm'; apply H; now right|].
  rewrite IHn, IHo.
  assert (Hm : is_leaf m = true -> is_norm m = false)
    by (apply H; now left).
  unfold norm_part, other_part, parameters_norecurse.
  rewrite has_child_is_leaf.
  destruct (is_leaf m) eqn:Hl; simpl; [|split; reflexivity].
  rewrite (Hm eq_refl), parameters_leaf
    by (rewrite has_child_is_leaf, Hl; reflexivity).
  split; reflexivity.
Qed.

Section WithModules.

Variable mixer_modules : RandomCutMixMixUp -> Module.

(** X2. On a classifier whose tensors are distinct objects, the tensors of
    the groups handed to the optimizer when [norm_weight_decay] is set are,
    up to order, the gradient-tracking ones among the tensors handed flat
    when it is [None]: leaving out the empty groups loses no tensor, and the
    frozen tensors, which the flat call passes on, are the only ones
    dropped. *)
Theorem grouping_hands_trainable_of_flat (self : ImageClassifier) (nwd : Q) :
  hparams.norm_weight_decay (hparams_ self) = Some nwd ->
  List.NoDup (parameters (as_module mixer_modules self)) ->
  exists gs flat,
    optimizer_parameters mixer_modules self = Groups gs
    /\ optimizer_parameters mixer_modules
         (set_hparams (Variants.with_norm_weight_decay None (hparams_ self)) self)
       = Flat flat
    /\ flat = parameters (as_module mixer_modules self)
    /\ Permutation (flat_map params gs) (trainable flat).
Proof.
  intros Hn _. do 2 eexists.
  split; [apply optimizer_parameters_grouped; exact Hn|].
  split; [reflexivity|]. split; [reflexivity|].
  rewrite flat_map_params_kept. apply split_permutation.
Qed.

(** X3. When no leaf module of the classifier is of a normalization class
    (and its tensors are distinct objects), grouping hands the optimizer one
    group at most: the gradient-tracking tensors in the order
    [self.parameters()] yields them, with the coefficient [weight_decay];
    [norm_weight_decay] is then not used. *)
Theorem no_norm_leaf_single_group (self : ImageClassifier) (nwd : Q) :
  hparams.norm_weight_decay (hparams_ self) = Some nwd ->
  List.NoDup (parameters (as_module mixer_modules self)) ->
  (forall m, In m (modules (as_module mixer_modules self)) ->
             is_leaf m = true -> is_norm m = false) ->
  optimizer_parameters mixer_modules self
  = Groups
      (if nonempty (trainable (parameters (as_module mixer_modules self)))
       then [mkGroup (trainable (parameters (as_module mixer_modules self)))
               (hparams.weight_decay (hparams_ self))]
       else []).
Proof.
  intros Hn _ Hleaves.
  rewrite (optimizer_parameters_grouped mixer_modules self nwd Hn).
  rewrite norm_params_eq, other_params_eq.
  destruct (parts_without_norm_leaf _ Hleaves) as [-> ->].
  rewrite parameters_modules, trainable_flat_map. reflexivity.
Qed.

(** X4. When every tensor of the classifier is frozen (in particular when it
    has none), grouping hands the optimizer an empty list of groups, while
    the flat call of [norm_weight_decay = None] still hands it every
    tensor. *)
Theorem all_frozen_no_group (self : ImageClassifier) (nwd : Q) :
  hparams.norm_weight_decay (hparams_ self) = Some nwd ->
  (forall p, In p (parameters (as_module mixer_modules self)) ->
             requires_grad p = false) ->
  optimizer_parameters mixer_modules self = Groups []
  /\ optimizer_parameters mixer_modules
       (set_hparams (Variants.with_norm_weight_decay None (hparams_ self)) self)
     = Flat (parameters (as_module mixer_modules self)).
Proof.
  intros Hn Hfrozen. split; [|reflexivity].
  rewrite (optimizer_parameters_grouped mixer_modules self nwd Hn).
  pose proof (split_permutation (as_module mixer_modules self)) as Hperm.
  rewrite (trainable_all_frozen _ Hfrozen) in Hperm.
  apply Permutation_sym, Permutation_nil in Hperm. apply app_eq_nil in Hperm.
  destruct Hperm as [-> ->]. reflexivity.
Qed.

End WithModules.

Lemma filter_sublist {A} (f : A -> bool) (l : list A) :
  sublist (List.filter f l) l.
Proof.
  induction l as [|x l IH]; simpl; [constructor|].
  destruct (f x); [now apply sublist_skip | now apply sublist_cons].
Qed.

Lemma flat_map_sublist {A B} (f g : A -> list B) (l : list A) :
  (forall x, sublist (f x) (g x)) -> sublist (flat_map f l) (flat_map g l).
Proof.
  intros H. induction l as [|x l IH]; simpl; [constructor|].
  apply sublist_app; [apply H | exact IH].
Qed.

Lemma part_sublist m :
  sublist (norm_part m) (_parameters m) /\ sublist (other_part m) (_parameters m).
Proof.
  unfold norm_part, other_part, parameters_norecurse.
  destruct (has_child m) eqn:Hc.
  - split; [apply sublist_nil_l | apply filter_sublist].
  - rewrite (parameters_leaf m Hc).
    destruct (is_norm m); split;
      try apply sublist_nil_l; apply filter_sublist.
Qed.

(** X5. On a module tree whose tensors are distinct objects, each of the two
    lists of the grouping pass keeps its tensors in the order in which
    [self.parameters()] yields them: it is that list with some items left
    out. *)
Theorem groups_keep_parameter_order (root : Module) :
  List.NoDup (parameters root) ->
  sublist (norm_params root) (parameters root)
  /\ sublist (other_params root) (parameters root).
Proof.
  intros _. rewrite norm_params_eq, other_params_eq, parameters_modules.
  split; apply flat_map_sublist; intros m; apply part_sublist.
Qed.

Lemma built_parameters_NoDup hp :
  List.NoDup
    (parameters (as_module Examples.mixer_modules (Examples.built hp))).
Proof.
  simpl. repeat (constructor; [simpl; intuition discriminate|]). constructor.
Qed.

Lemma grouping_hands_trainable_of_flat_witness :
  exists gs,
    optimizer_parameters Examples.mixer_modules (Examples.built Examples.args)
    = Groups gs
    /\ Permutation (flat_map params gs)
         [mkParam 5 true; mkParam 1 true; mkParam 2 true; mkParam 3 true;
          mkParam 100 true; mkParam 101 true].
Proof.
  destruct (grouping_hands_trainable_of_flat Examples.mixer_modules
              (Examples.built Examples.args) 0%Q eq_refl
              (built_parameters_NoDup Examples.args))
    as (gs & flat & Hgs & _ & Hflat & Hperm).
  exists gs. split; [exact Hgs|]. rewrite Hflat in Hperm. exact Hperm.
Defined.

Lemma plain_parameters_NoDup :
  List.NoDup
    (parameters
       (as_module Examples.mixer_modules
          (Variants.bare Examples.args Variants.plain_net))).
Proof.
  simpl. repeat (constructor; [simpl; intuition discriminate|]). constructor.
Qed.

Lemma no_norm_leaf_single_group_witness :
  optimizer_parameters Examples.mixer_modules
    (Variants.bare Examples.args Variants.plain_net)
  = Groups
      [mkGroup [mkParam 7 true; mkParam 3 true; mkParam 8 true] (2 # 100000)%Q].
Proof.
  rewrite (no_norm_leaf_single_group Examples.mixer_modules
             (Variants.bare Examples.args Variants.plain_net) 0%Q eq_refl
             plain_parameters_NoDup).
  - reflexivity.
  - simpl. intros m Hm _.
    repeat (destruct Hm as [<-|Hm]; [reflexivity|]). contradiction.
Defined.

Lemma all_frozen_no_group_witness :
  optimizer_parameters Examples.mixer_modules
    (Variants.bare Examples.args Variants.frozen_net)
  = Groups []
  /\ optimizer_parameters Examples.mixer_modules
       (Variants.bare
          (Variants.with_norm_weight_decay None Examples.args)
          Variants.frozen_net)
     = Flat [mkParam 1 false; mkParam 2 false; mkParam 4 false].
Proof.
  apply (all_frozen_no_group Examples.mixer_modules
           (Variants.bare Examples.args Variants.frozen_net) 0%Q eq_refl).
  simpl. intros p Hp.
  repeat (destruct Hp as [<-|Hp]; [reflexivity|]). contradiction.
Defined.

Lemma groups_keep_parameter_order_witness :
  sublist [mkParam 1 true; mkParam 2 true]
    [mkParam 5 true; mkParam 1 true; mkParam 2 true; mkParam 3 true;
     mkParam 4 false]
  /\ sublist [mkParam 5 true; mkParam 3 true]
       [mkParam 5 true; mkParam 1 true; mkParam 2 true; mkParam 3 true;
        mkParam 4 false].
Proof.
  exact (groups_keep_parameter_order Examples.net Grouping.net_parameters_NoDup).
Defined.

End GroupingMore.

(** ** More on the schedule *)

Module ScheduleMore.
Import Schedule Classifier OptimizerFacts ScheduleFacts.

(** X6. For every configuration with [warmup_epochs > 0], in the schedule
    [configure_optimizers] returns the cosine scheduler, of period
    [max_epochs - warmup_epochs], governs the epochs before [warmup_epochs],
    and the linear ramp governs the epochs from [warmup_epochs] on, counted
    from its own epoch 0: the multiplier is [warmup_decay] at epoch
    [warmup_epochs] and 1 at every epoch from [2 * warmup_epochs] on. *)
Theorem cosine_governs_before_milestone
    (mixer_modules : RandomCutMixMixUp -> Tree.Module)
    (self : ImageClassifier) (trainer : Trainer) (cfg : OptimizerConfig) :
  0 < hparams.warmup_epochs (hparams_ self) ->
  configure_optimizers mixer_modules self trainer = inr cfg ->
  let w := hparams.warmup_epochs (hparams_ self) in
  (forall e, e < w ->
     governing (cfg_lr_scheduler cfg) e
     = Some (CosineAnnealingLR (max_epochs trainer - w), e))
  /\ (forall e, w <= e ->
        governing (cfg_lr_scheduler cfg) e
        = Some (LinearLR (hparams.warmup_decay (hparams_ self)) w, e - w))
  /\ (forall cosine_factor,
        exists q,
          lr_multiplier cosine_factor (cfg_lr_scheduler cfg) w = Some q
          /\ (q == hparams.warmup_decay (hparams_ self))%Q)
  /\ (forall cosine_factor e, 2 * w <= e ->
        exists q,
          lr_multiplier cosine_factor (cfg_lr_scheduler cfg) e = Some q
          /\ (q == 1)%Q).
Proof.
  intros Hw H w. apply configure_optimizers_inv in H.
  destruct H as (ctor & _ & _ & Hs). rewrite Hs. subst w.
  split; [|split; [|split]].
  - intros e He.
    now apply (proj1 (composed_schedule_phases (hparams_ self) trainer e Hw)).
  - intros e He.
    now apply (proj2 (composed_schedule_phases (hparams_ self) trainer e Hw)).
  - intros cosine_factor. eexists. unfold lr_multiplier.
    rewrite (proj2 (composed_schedule_phases (hparams_ self) trainer _ Hw))
      by lia.
    split; [reflexivity|]. rewrite Z.sub_diag.
    destruct (LinearLR_factor_start (hparams.warmup_decay (hparams_ self))
                (hparams.warmup_epochs (hparams_ self))) as [Hq|Hq];
      [exact Hq | lia].
  - intros cosine_factor e He. eexists. unfold lr_multiplier.
    rewrite (proj2 (composed_schedule_phases (hparams_ self) trainer e Hw))
      by lia.
    split; [reflexivity|]. apply LinearLR_factor_end; lia.
Qed.

Lemma cosine_governs_before_milestone_witness :
  exists cfg,
    configure_optimizers Examples.mixer_modules (Examples.built Examples.args)
      (mkTrainer 100) = inr cfg
    /\ governing (cfg_lr_scheduler cfg) 3 = Some (CosineAnnealingLR 95, 3)
    /\ governing (cfg_lr_scheduler cfg) 7 = Some (LinearLR (1 # 100)%Q 5, 2).
Proof.
  destruct (configure_optimizers Examples.mixer_modules
              (Examples.built Examples.args) (mkTrainer 100))
    as [e|cfg] eqn:E; [vm_compute in E; discriminate E|].
  exists cfg. split; [reflexivity|].
  assert (Hw : 0 < hparams.warmup_epochs (hparams_ (Examples.built Examples.args)))
    by (simpl; lia).
  destruct (cosine_governs_before_milestone Examples.mixer_modules
              (Examples.built Examples.args) (mkTrainer 100) cfg Hw E)
    as (Hbefore & Hafter & _).
  split; [apply (Hbefore 3); simpl; lia | apply (Hafter 7); simpl; lia].
Defined.

(** X7. For every configuration with [warmup_epochs <= 0], the schedule
    [configure_optimizers] returns is the cosine scheduler alone, whatever
    [warmup_decay]; its period is still [max_epochs - warmup_epochs], so a
    negative [warmup_epochs] gives a period longer than the training run. *)
Theorem nonpositive_warmup_cosine_only
    (mixer_modules : RandomCutMixMixUp -> Tree.Module)
    (self : ImageClassifier) (trainer : Trainer) (cfg : OptimizerConfig) :
  hparams.warmup_epochs (hparams_ self) <= 0 ->
  configure_optimizers mixer_modules self trainer = inr cfg ->
  exists T_max,
    cfg_lr_scheduler cfg = CosineAnnealingLR T_max
    /\ T_max = max_epochs trainer - hparams.warmup_epochs (hparams_ self)
    /\ max_epochs trainer <= T_max
    /\ (hparams.warmup_epochs (hparams_ self) < 0 -> max_epochs trainer < T_max).
Proof.
  intros Hw H. apply configure_optimizers_inv in H.
  destruct H as (ctor & _ & _ & Hs).
  exists (max_epochs trainer - hparams.warmup_epochs (hparams_ self)).
  split; [rewrite Hs; now apply make_lr_scheduler_no_warmup|].
  split; [reflexivity|]. split; lia.
Qed.

Lemma nonpositive_warmup_cosine_only_witness :
  exists cfg,
    configure_optimizers Examples.mixer_modules
      (Examples.built (hparams.with_warmup_epochs (-3) Examples.args))
      (mkTrainer 100) = inr cfg
    /\ cfg_lr_scheduler cfg = CosineAnnealingLR 103.
Proof.
  destruct (configure_optimizers Examples.mixer_modules
              (Examples.built (hparams.with_warmup_epochs (-3) Examples.args))
              (mkTrainer 100))
    as [e|cfg] eqn:E; [vm_compute in E; discriminate E|].
  exists cfg. split; [reflexivity|].
  assert (Hw : hparams.warmup_epochs
                 (hparams_ (Examples.built
                              (hparams.with_warmup_epochs (-3) Examples.args)))
               <= 0) by (simpl; lia).
  destruct (nonpositive_warmup_cosine_only Examples.mixer_modules _ _ cfg Hw E)
    as (T & HT & -> & _).
  exact HT.
Defined.

End ScheduleMore.

(** ** More on construction *)

Module ConstructionMore.
Import Tree Classifier ConstructionFacts.

Lemma last_item_app (l : list Z) (c : Z) : last_item (l ++ [c]) = inr c.
Proof. unfold last_item. rewrite rev_unit. reflexivity. Qed.

Lemma last_item_inv (l : list Z) (c : Z) :
  last_item l = inr c -> exists cs, l = cs ++ [c].
Proof.
  destruct l as [|a l] using rev_ind; [discriminate|].
  rewrite last_item_app. intros H. injection H as ->. now exists l.
Qed.

Lemma make_train_transforms_inv p ts :
  make_train_transforms p = inr ts ->
  ts
  = [RandomHorizontalFlip; TrivialAugmentWide; ConvertImageDtype; Normalize]
    ++ (if Qlt_le_dec 0 p then [RandomErasing p] else []).
Proof.
  unfold make_train_transforms, RandomErasing_init, bind.
  destruct (Qlt_le_dec 0 p).
  - destruct (Qlt_le_dec p 0); [discriminate|].
    destruct (Qlt_le_dec 1 p); [discriminate|].
    intros H. now injection H.
  - intros H. injection H as <-. reflexivity.
Qed.

Lemma init_transforms backbones Linear args self :
  __init__ backbones Linear args = inr self ->
  train_transforms self
  = [RandomHorizontalFlip; TrivialAugmentWide; ConvertImageDtype; Normalize]
    ++ (if Qlt_le_dec 0 (hparams.random_erasing_p args)
        then [RandomErasing (hparams.random_erasing_p args)] else []).
Proof.
  intros H. apply init_shape in H.
  destruct H as (bb & x & ts & _ & _ & _ & Hts & ->). simpl.
  now apply make_train_transforms_inv.
Qed.

(** X8. Once the backbone is resolved, the constructor raises [IndexError]
    when the backbone declares no output channel. When the constructor
    returns, the backbone declares a channel, the classifier holds the
    scripted module tree of the backbone, its head is the scripted sequence
    that ends in the linear layer from the last declared channel count to
    [num_classes], neither of them negative, and the stored configuration is
    the arguments with the backbone object in the place of [backbone]. *)
Theorem head_takes_last_channel
    (backbones : gmap string hparams.Backbone) (Linear : Z -> Z -> Module)
    (args : hparams.t) :
  (forall bb,
     resolve_backbone backbones (hparams.backbone args) = inr bb ->
     hparams.get_out_channels bb = [] ->
     __init__ backbones Linear args = inl IndexError)
  /\ (forall self,
        __init__ backbones Linear args = inr self ->
        exists bb cs c,
          resolve_backbone backbones (hparams.backbone args) = inr bb
          /\ hparams.get_out_channels bb = cs ++ [c]
          /\ 0 <= c /\ 0 <= hparams.num_classes args
          /\ hparams_ self = hparams.with_backbone (inr bb) args
          /\ backbone self = script (hparams.body bb)
          /\ classifier self
             = script (Sequential [plain_leaf; plain_leaf;
                                   Linear c (hparams.num_classes args)])).
Proof.
  split.
  - intros bb Hb He. unfold __init__, bind. rewrite Hb, He. reflexivity.
  - intros self H. apply init_shape in H.
    destruct H as (bb & c & ts & Hb & Hl & Hlin & _ & ->).
    destruct (last_item_inv _ _ Hl) as [cs Hcs].
    exists bb, cs, c. split; [exact Hb|]. split; [exact Hcs|].
    unfold nn_Linear in Hlin.
    destruct (Z.ltb_spec c 0), (Z.ltb_spec (hparams.num_classes args) 0);
      try discriminate Hlin.
    repeat split; assumption || reflexivity.
Qed.

Lemma head_takes_last_channel_witness :
  __init__ Examples.registry Examples.linear
    (hparams.defaults (inr Variants.channelless) 10 "train" "val")
  = inl IndexError
  /\ exists self,
       __init__ Examples.registry Examples.linear
         (Examples.args_by_name "darknet53") = inr self
       /\ hparams.backbone (hparams_ self) = inr Examples.darknet53
       /\ classifier self
          = script (Sequential [plain_leaf; plain_leaf;
                                Examples.linear 1024 10]).
Proof.
  split.
  - apply (proj1 (head_takes_last_channel Examples.registry Examples.linear
                    (hparams.defaults (inr Variants.channelless) 10 "train" "val"))
             Variants.channelless eq_refl).
    reflexivity.
  - destruct (__init__ Examples.registry Examples.linear
                (Examples.args_by_name "darknet53")) as [e|self] eqn:E;
      [vm_compute in E; discriminate E|].
    exists self. split; [reflexivity|].
    destruct (proj2 (head_takes_last_channel Examples.registry Examples.linear
                       (Examples.args_by_name "darknet53")) self E)
      as (bb & cs & c & Hb & Hcs & _ & _ & Hhp & _ & Hhead).
    injection Hb as <-.
    apply (f_equal (fun l => List.last l 0)) in Hcs.
    rewrite List.last_last in Hcs.
    simpl in Hcs. subst c.
    split; [rewrite Hhp; reflexivity | exact Hhead].
Defined.

(** X9. In a constructed classifier the training transforms are the flip, the
    automatic augmentation, the conversion to float and the normalization, in
    this order, followed by random erasing exactly when [random_erasing_p] is
    positive, with that probability; erasing is never applied before the
    normalization. *)
Theorem erasing_iff_positive_probability
    (backbones : gmap string hparams.Backbone) (Linear : Z -> Z -> Module)
    (args : hparams.t) (self : ImageClassifier) :
  __init__ backbones Linear args = inr self ->
  firstn 4 (train_transforms self)
  = [RandomHorizontalFlip; TrivialAugmentWide; ConvertImageDtype; Normalize]
  /\ ((0 < hparams.random_erasing_p args)%Q ->
      skipn 4 (train_transforms self)
      = [RandomErasing (hparams.random_erasing_p args)])
  /\ (~ (0 < hparams.random_erasing_p args)%Q ->
      skipn 4 (train_transforms self) = []).
Proof.
  intros H. rewrite (init_transforms _ _ _ _ H).
  destruct (Qlt_le_dec 0 (hparams.random_erasing_p args)) as [Hp|Hp]; simpl.
  - split; [reflexivity|]. split; [reflexivity|]. intros Hn. contradiction.
  - split; [reflexivity|]. split; [|reflexivity].
    intros Hn. exfalso. exact (Qle_not_lt _ _ Hp Hn).
Qed.

Lemma erasing_iff_positive_probability_witness :
  skipn 4 (train_transforms (Examples.built Examples.args))
  = [RandomErasing (1 # 10)%Q].
Proof.
  apply (proj1 (proj2 (erasing_iff_positive_probability Examples.registry
                         Examples.linear Examples.args
                         (Examples.built Examples.args) eq_refl))).
  reflexivity.
Defined.

(** X10. For every constructed classifier an image goes, before the forward
    pass, through the same encoding operations on the training path (data
    set, then [train_transforms]) and on the validation path (data set
    only): conversion to a tensor, conversion to float, normalization, each
    once and in this order. The training loader reads [train_dir] with a
    random crop to [train_crop_size] and shuffles; the validation loader
    reads [val_dir] with a resize to [val_resize_size] and a center crop to
    [val_crop_size] and does not shuffle; both take [batch_size] and
    [num_workers] from the configuration and pin memory. *)
Theorem train_and_val_encode_alike
    (backbones : gmap string hparams.Backbone) (Linear : Z -> Z -> Module)
    (args : hparams.t) (self : ImageClassifier) :
  __init__ backbones Linear args = inr self ->
  Data.train_encodings self = [Data.ToTensor; Data.ToFloat; Data.Normalized]
  /\ Data.val_encodings self = Data.train_encodings self
  /\ Data.train_dataloader self
     = {| Data.root := hparams.train_dir args;
          Data.transform :=
            [Data.RandomResizedCrop (hparams.train_crop_size args);
             Data.PILToTensor];
          Data.batch_size := hparams.batch_size args;
          Data.shuffle := true;
          Data.num_workers := hparams.num_workers args;
          Data.pin_memory := true |}
  /\ Data.val_dataloader self
     = {| Data.root := hparams.val_dir args;
          Data.transform :=
            [Data.Resize (hparams.val_resize_size args);
             Data.CenterCrop (hparams.val_crop_size args);
             Data.PILToTensor; Data.ConvertImageDtype; Data.Normalize];
          Data.batch_size := hparams.batch_size args;
          Data.shuffle := false;
          Data.num_workers := hparams.num_workers args;
          Data.pin_memory := true |}.
Proof.
  intros H. pose proof (init_transforms _ _ _ _ H) as Hts.
  apply init_inv in H. destruct H as (bb & x & _ & _ & Hhp & _).
  unfold Data.train_encodings, Data.val_encodings, Data.train_dataloader,
    Data.val_dataloader.
  rewrite Hts, Hhp.
  destruct (Qlt_le_dec 0 (hparams.random_erasing_p args)); simpl;
    repeat split; reflexivity.
Qed.

Lemma train_and_val_encode_alike_witness :
  Data.val_encodings (Examples.built Examples.args)
  = [Data.ToTensor; Data.ToFloat; Data.Normalized]
  /\ Data.batch_size (Data.train_dataloader (Examples.built Examples.args))
     = 128
  /\ Data.transform (Data.val_dataloader (Examples.built Examples.args))
     = [Data.Resize 232; Data.CenterCrop 224; Data.PILToTensor;
        Data.ConvertImageDtype; Data.Normalize].
Proof.
  destruct (train_and_val_encode_alike Examples.registry Examples.linear
              Examples.args (Examples.built Examples.args) eq_refl)
    as (Ht & Hv & Htrain & Hval).
  split; [rewrite Hv; exact Ht|].
  split; [rewrite Htrain | rewrite Hval]; reflexivity.
Defined.

End ConstructionMore.

(** ** The backbone interface *)

Module BackboneFacts.
Import Backbones Variants.

Lemma last_of_nil {A} : @last_of A [] = inl IndexError.
Proof. reflexivity. Qed.

Lemma last_of_app {A} (l : list A) (x : A) : last_of (l ++ [x]) = inr x.
Proof. unfold last_of. rewrite rev_unit. reflexivity. Qed.

Lemma last_of_inv {A} (l : list A) (x : A) :
  last_of l = inr x -> exists l', l = l' ++ [x].
Proof.
  destruct l as [|a l] using rev_ind; [discriminate|].
  rewrite last_of_app. intros H. injection H as ->. now exists l.
Qed.

Lemma combine_snoc {A B} (l1 : list A) (l2 : list B) a b :
  length l1 = length l2 ->
  combine (l1 ++ [a]) (l2 ++ [b]) = combine l1 l2 ++ [(a, b)].
Proof.
  revert l2. induction l1 as [|x l1 IH]; intros [|y l2] Hlen;
    try discriminate Hlen; simpl; [reflexivity|].
  f_equal. apply IH. now injection Hlen.
Qed.

Section Interface.

Context {B : Type} `{BaseBackbone B}.

(** X11. [forward] returns the last feature map, and raises [IndexError]
    exactly when [get_feature_maps] returns no map. When
    [test_get_feature_maps] passes on a backbone and an input, [forward] on
    that input raises if the backbone declares no channel, and otherwise
    returns a tensor of four dimensions whose channel count is the last
    entry of [out_channels_list], so that [test_forward] passes too. *)
Theorem forward_is_last_feature_map (m : B) (x : Tensor) :
  (forward m x = inl IndexError <-> get_feature_maps m x = [])
  /\ (forall t, forward m x = inr t <->
                exists maps, get_feature_maps m x = maps ++ [t])
  /\ (test_get_feature_maps m x = true ->
      (out_channels_list m = [] -> forward m x = inl IndexError)
      /\ (forall cs c,
            out_channels_list m = cs ++ [c] ->
            exists t,
              forward m x = inr t
              /\ length (shape t) = 4%nat
              /\ channels t = Some c
              /\ test_forward m x = true)).
Proof.
  unfold forward. split; [|split].
  - split.
    + destruct (get_feature_maps m x) as [|a l] using rev_ind;
        [reflexivity|]. rewrite last_of_app. discriminate.
    + intros ->. reflexivity.
  - intros t. split.
    + apply last_of_inv.
    + intros [maps ->]. apply last_of_app.
  - unfold test_get_feature_maps, test_forward, forward.
    intros Htest. apply andb_true_iff in Htest. destruct Htest as [Hlen Hall].
    apply Nat.eqb_eq in Hlen. split.
    + intros Hnil. rewrite Hnil in Hlen. simpl in Hlen.
      apply length_zero_iff_nil in Hlen. rewrite Hlen. reflexivity.
    + intros cs c Hcs. rewrite Hcs in Hlen, Hall.
      destruct (get_feature_maps m x) as [|t maps _] using rev_ind.
      { rewrite length_app in Hlen. simpl in Hlen. lia. }
      rewrite !length_app in Hlen. simpl in Hlen.
      rewrite combine_snoc in Hall by lia.
      rewrite forallb_app in Hall. apply andb_true_iff in Hall.
      destruct Hall as [_ Hlast]. simpl in Hlast.
      rewrite andb_true_r in Hlast. apply andb_true_iff in Hlast.
      destruct Hlast as [Hdim Hch]. apply Nat.eqb_eq in Hdim.
      exists t. rewrite last_of_app.
      split; [reflexivity|]. split; [exact Hdim|].
      split; [|now apply Nat.eqb_eq].
      destruct (channels t) as [c'|]; [|discriminate Hch].
      apply Z.eqb_eq in Hch. now subst.
Qed.

End Interface.

Lemma forward_is_last_feature_map_witness :
  (exists t,
     forward Variants.two_stage (mkTensor [1; 3; 224; 224]) = inr t
     /\ channels t = Some 128
     /\ test_forward Variants.two_stage (mkTensor [1; 3; 224; 224]) = true)
  /\ forward Variants.no_stage (mkTensor [1; 3; 224; 224]) = inl IndexError.
Proof.
  pose proof (forward_is_last_feature_map Variants.two_stage
                (mkTensor [1; 3; 224; 224])) as (_ & _ & Htest).
  destruct (proj2 (Htest eq_refl) [64] 128 eq_refl) as (t & Ht & _ & Hc & Hf).
  split; [exists t; auto|].
  apply (proj1 (forward_is_last_feature_map Variants.no_stage
                  (mkTensor [1; 3; 224; 224]))).
  reflexivity.
Defined.

End BackboneFacts.

(** ** More on the steps *)

Module StepsMore.
Import Tree Classifier Metrics Steps StepFacts ConstructionFacts Batches.

Section WithOperations.

Variables Images Env : Type.
Variable apply_transform : Transform -> Images -> Env -> Images * Env.
Variable mixer :
  RandomCutMixMixUp -> Images -> list Z -> Env -> (Images * list (list Q)) * Env.
Variable forward : Module -> Module -> Images -> Env -> list (list Q) * Env.
Variable cross_entropy : list (list Q) -> Labels -> Q -> fval.

(** X12. Whatever the classifier, the batch and the state, and whether or not
    the mixer is applied, [training_step] adds to the log exactly one entry,
    named train/loss, whose value is the loss it returns; what was logged
    before is kept, and the transforms, the mixer and the forward pass log
    nothing. *)
Theorem training_step_logs_its_loss (self : ImageClassifier)
    (batch : Images * list Z) (idx : Z) (w : World Env) :
  exists loss e',
    training_step apply_transform mixer forward cross_entropy self batch idx w
    = (inr loss, mkWorld e' (logged w ++ [("train/loss", loss)])).
Proof.
  destruct batch as [images labels].
  destruct (apply_transforms_returns _ _ apply_transform
              (train_transforms self) images w) as (images1 & e1 & H1).
  destruct (mixed_sample_returns _ _ mixer self images1 labels
              (mkWorld e1 (logged w))) as (il & e2 & H2).
  simpl in H2.
  destruct (forward (backbone self) (classifier self) (fst il) e2)
    as [logits e3] eqn:H3.
  exists (cross_entropy logits (snd il) 0%Q), e3.
  apply (training_step_unfold _ _ apply_transform mixer forward cross_entropy
           self images labels idx w images1 _ il _ logits e3 H1 H2).
  exact H3.
Qed.

End WithOperations.

(** X13. For a classifier built with [mixup_alpha] or [cutmix_alpha] not
    positive, the loss of [training_step] is the cross entropy, without
    smoothing, of the logits of the transformed images against the integer
    labels of the batch; the mixer is never called. *)
Theorem unmixed_training_uses_hard_labels
    (backbones : gmap string hparams.Backbone) (Linear : Z -> Z -> Module)
    (args : hparams.t) (self : ImageClassifier)
    (Images Env : Type)
    (apply_transform : Transform -> Images -> Env -> Images * Env)
    (mixer : RandomCutMixMixUp -> Images -> list Z -> Env ->
             (Images * list (list Q)) * Env)
    (forward : Module -> Module -> Images -> Env -> list (list Q) * Env)
    (cross_entropy : list (list Q) -> Labels -> Q -> fval)
    (images : Images) (labels : list Z) (idx : Z) (w : World Env)
    (images1 : Images) (e1 : Env) (logits : list (list Q)) (e2 : Env) :
  __init__ backbones Linear args = inr self ->
  ~ (0 < hparams.mixup_alpha args /\ 0 < hparams.cutmix_alpha args)%Q ->
  apply_transforms apply_transform (train_transforms self) images w
  = (inr images1, mkWorld e1 (logged w)) ->
  forward (backbone self) (classifier self) images1 e1 = (logits, e2) ->
  training_step apply_transform mixer forward cross_entropy self
    (images, labels) idx w
  = (inr (cross_entropy logits (Hard labels) 0%Q),
     mkWorld e2
       (logged w ++ [("train/loss", cross_entropy logits (Hard labels) 0%Q)])).
Proof.
  intros Hinit Hoff H1 H2. apply init_inv in Hinit.
  destruct Hinit as (bb & x & _ & _ & _ & Hmc).
  rewrite (proj2 (make_mixup_cutmix_spec _ _ _) Hoff) in Hmc.
  apply (training_step_unfold _ _ apply_transform mixer forward cross_entropy
           self images labels idx w images1 (mkWorld e1 (logged w))
           (images1, Hard labels) (mkWorld e1 (logged w)) logits e2 H1).
  - unfold mixed_sample. rewrite Hmc. reflexivity.
  - exact H2.
Qed.

Lemma unmixed_training_uses_hard_labels_witness :
  training_step Examples.transform_stub Examples.mixer_stub
    Examples.forward_stub Examples.cross_entropy_stub
    (Examples.built_plain
       (Variants.with_augmentation (1 # 10)%Q 0%Q 1%Q Examples.args))
    ([1%Q], [0; 1]) 0 (mkWorld 0%nat [])
  = (inr (Fin 0), mkWorld 6%nat [("train/loss", Fin 0)]).
Proof.
  apply (unmixed_training_uses_hard_labels Examples.registry Examples.linear
           (Variants.with_augmentation (1 # 10)%Q 0%Q 1%Q Examples.args)
           (Examples.built_plain
              (Variants.with_augmentation (1 # 10)%Q 0%Q 1%Q Examples.args))
           (list Q) nat Examples.transform_stub Examples.mixer_stub
           Examples.forward_stub Examples.cross_entropy_stub
           [1%Q] [0; 1] 0 (mkWorld 0%nat []) [1%Q] 5%nat
           [[2; 1]; [0; 3]]%Q 6%nat).
  - reflexivity.
  - intros [Hm _]. discriminate Hm.
  - reflexivity.
  - reflexivity.
Defined.

(** X14. Validation does not depend on the augmentation settings: when two
    configurations that differ only in [random_erasing_p], [mixup_alpha] and
    [cutmix_alpha] both construct, the two classifiers have the same
    validation loader and the same [validation_step]. *)
Theorem validation_ignores_augmentation
    (backbones : gmap string hparams.Backbone) (Linear : Z -> Z -> Module)
    (args : hparams.t) (self self' : ImageClassifier) (p m c : Q) :
  __init__ backbones Linear args = inr self ->
  __init__ backbones Linear (Variants.with_augmentation p m c args) = inr self' ->
  Data.val_dataloader self' = Data.val_dataloader self
  /\ forall (Images Env : Type)
       (forward : Module -> Module -> Images -> Env -> list (list Q) * Env)
       (cross_entropy : list (list Q) -> Labels -> Q -> fval)
       (batch : Images * list Z) (idx : Z) (w : World Env),
       validation_step forward cross_entropy self' batch idx w
       = validation_step forward cross_entropy self batch idx w.
Proof.
  intros H H'. apply init_shape in H. apply init_shape in H'.
  destruct H as (bb & x & ts & Hb & Hl & _ & _ & ->).
  destruct H' as (bb' & x' & ts' & Hb' & Hl' & _ & _ & ->).
  simpl in Hb'. rewrite Hb in Hb'. injection Hb' as <-.
  rewrite Hl in Hl'. injection Hl' as <-.
  split; [reflexivity|].
  intros Images Env forward cross_entropy [images labels] idx w. reflexivity.
Qed.

Lemma validation_ignores_augmentation_witness :
  mixup_cutmix
    (Examples.built_plain
       (Variants.with_augmentation (1 # 10)%Q 0%Q 0%Q Examples.args))
  = None
  /\ validation_step Examples.forward_stub Examples.cross_entropy_stub
       (Examples.built_plain
          (Variants.with_augmentation (1 # 10)%Q 0%Q 0%Q Examples.args))
       ([1%Q], [0; 1]) 0 (mkWorld 0%nat [])
     = validation_step Examples.forward_stub Examples.cross_entropy_stub
         (Examples.built Examples.args) ([1%Q], [0; 1]) 0 (mkWorld 0%nat []).
Proof.
  split; [reflexivity|].
  apply (proj2 (validation_ignores_augmentation Examples.registry
                  Examples.linear Examples.args (Examples.built Examples.args)
                  (Examples.built_plain
                     (Variants.with_augmentation (1 # 10)%Q 0%Q 0%Q
                        Examples.args))
                  (1 # 10)%Q 0%Q 0%Q eq_refl eq_refl)).
Defined.

(** *** Accuracy *)

Lemma count_equal_le a b : (count_equal a b <= length a)%nat.
Proof.
  revert b. induction a as [|x a IH]; intros [|y b]; simpl; try lia.
  specialize (IH b). destruct (Z.eq_dec x y); lia.
Qed.

Lemma count_equal_full a b :
  length a = length b ->
  (count_equal a b = length a <-> a = b).
Proof.
  revert b. induction a as [|x a IH]; intros [|y b] Hlen;
    try discriminate Hlen; simpl; [tauto|].
  injection Hlen as Hlen. specialize (IH b Hlen).
  pose proof (count_equal_le a b) as Hle.
  destruct (Z.eq_dec x y) as [->|Hne]; split; intros Heq.
  - f_equal. apply IH. lia.
  - injection Heq as ->. destruct IH as [_ IH]. rewrite IH; reflexivity.
  - lia.
  - injection Heq as Hxy _. contradiction.
Qed.

Lemma fraction_bounds (c : Z) (p : positive) :
  0 <= c <= Z.pos p ->
  (0 <= inject_Z c / inject_Z (Z.pos p))%Q
  /\ (inject_Z c / inject_Z (Z.pos p) <= 1)%Q
  /\ ((inject_Z c / inject_Z (Z.pos p) == 1)%Q <-> c = Z.pos p).
Proof.
  intros Hc. unfold Qdiv, Qinv, Qmult, Qle, Qeq, inject_Z. simpl.
  repeat split; try lia.
Qed.

(** X15. For a batch whose logits have one non-empty row per label: if the
    batch is empty the accuracy is not-a-number; otherwise it is a finite
    value between 0 and 1, and it is 1 exactly when every prediction is the
    label. *)
Theorem accuracy_is_a_fraction (logits : list (list Q)) (labels : list Z) :
  length logits = length labels ->
  Forall (fun row => row <> []) logits ->
  (labels = [] -> accuracy logits labels = inr NaN)
  /\ (labels <> [] ->
      exists q,
        accuracy logits labels = inr (Fin q)
        /\ (0 <= q)%Q /\ (q <= 1)%Q
        /\ ((q == 1)%Q <-> argmax_rows logits = inr labels)).
Proof.
  intros Hlen Hrows. split.
  - intros ->. destruct logits; [reflexivity | discriminate Hlen].
  - intros Hne.
    destruct (argmax_rows_spec logits Hrows) as (preds & Hp & Hall).
    assert (Hlp : length labels = length preds).
    { rewrite <- Hlen. clear - Hall. induction Hall; simpl; congruence. }
    unfold accuracy, bind. rewrite Hp, tensor_sum_count.
    unfold true_divide, numel.
    destruct labels as [|l labels]; [contradiction|].
    cbn [length]. rewrite Nat2Z.inj_succ.
    pose proof (count_equal_le (l :: labels) preds) as Hle. cbn [length] in Hle.
    destruct (Z.succ (Z.of_nat (length labels))) as [|p|p] eqn:Hp'; try lia.
    simpl.
    destruct (fraction_bounds (Z.of_nat (count_equal (l :: labels) preds)) p)
      as (H0 & H1 & Heq); [lia|].
    eexists. split; [reflexivity|]. split; [exact H0|]. split; [exact H1|].
    rewrite Heq. rewrite <- Hp', <- Nat2Z.inj_succ, Nat2Z.inj_iff.
    change (S (length labels)) with (length (l :: labels)).
    rewrite (count_equal_full _ _ Hlp). split; intros H; congruence.
Qed.

Lemma accuracy_is_a_fraction_witness :
  exists q,
    accuracy [[2; 2]; [3; 3]]%Q [0; 1] = inr (Fin q)
    /\ (q <= 1)%Q /\ ~ (q == 1)%Q.
Proof.
  destruct (proj2 (accuracy_is_a_fraction [[2; 2]; [3; 3]]%Q [0; 1] eq_refl
                     ltac:(repeat constructor; discriminate))
              ltac:(discriminate))
    as (q & Hq & _ & Hle & Hone).
  exists q. split; [exact Hq|]. split; [exact Hle|].
  intros H. apply Hone in H. discriminate H.
Defined.

Lemma argmax_rows_samples (samples : list sample) :
  argmax_rows (map fst samples)
  = if forallb has_class samples
    then inr (map (fun s => match argmax (fst s) with
                            | inr k => k
                            | inl _ => 0
                            end) samples)
    else inl IndexError.
Proof.
  induction samples as [|[row l] samples IH]; [reflexivity|].
  cbn [map fst forallb argmax_rows]. rewrite IH.
  destruct (forallb has_class samples), row as [|x r]; reflexivity.
Qed.

Lemma count_equal_hits (samples : list sample) :
  forallb has_class samples = true ->
  count_equal (map snd samples)
    (map (fun s => match argmax (fst s) with
                   | inr k => k
                   | inl _ => 0
                   end) samples)
  = hits samples.
Proof.
  unfold hits. induction samples as [|[row l] samples IH]; simpl;
    [reflexivity|].
  intros H. apply andb_true_iff in H. destruct H as [Hrow Hrest].
  rewrite (IH Hrest). unfold is_hit at 2. simpl.
  destruct row as [|x r]; [discriminate Hrow|]. simpl.
  destruct (Z.eq_dec l (Z.of_nat (argmax_from 0 x 1 r))) as [->|Hne].
  - rewrite Z.eqb_refl. reflexivity.
  - destruct (Z.eqb_spec (Z.of_nat (argmax_from 0 x 1 r)) l); [congruence|].
    reflexivity.
Qed.

Lemma accuracy_of_samples (samples : list sample) :
  accuracy (map fst samples) (map snd samples)
  = if forallb has_class samples
    then inr (true_divide (Z.of_nat (hits samples))
                (Z.of_nat (length samples)))
    else inl IndexError.
Proof.
  unfold accuracy, bind. rewrite argmax_rows_samples.
  destruct (forallb has_class samples) eqn:Hall; [|reflexivity].
  rewrite tensor_sum_count, (count_equal_hits samples Hall).
  unfold numel. rewrite length_map. reflexivity.
Qed.

Lemma forallb_Permutation {A} (f : A -> bool) l l' :
  Permutation l l' -> forallb f l = forallb f l'.
Proof.
  induction 1 as [|x l l' _ IH|x y l|l l' l'' _ IH1 _ IH2]; simpl.
  - reflexivity.
  - now rewrite IH.
  - destruct (f x), (f y); reflexivity.
  - congruence.
Qed.

Lemma hits_Permutation l l' : Permutation l l' -> hits l = hits l'.
Proof.
  unfold hits.
  induction 1 as [|x l l' _ IH|x y l|l l' l'' _ IH1 _ IH2]; simpl.
  - reflexivity.
  - destruct (is_hit x); simpl; now rewrite IH.
  - destruct (is_hit x), (is_hit y); reflexivity.
  - congruence.
Qed.

(** X16. The accuracy of a batch does not depend on the order of its
    samples: rearranging the rows of logits together with their labels gives
    the same accuracy, or the same error. *)
Theorem accuracy_ignores_sample_order (samples samples' : list sample) :
  Permutation samples samples' ->
  accuracy (map fst samples) (map snd samples)
  = accuracy (map fst samples') (map snd samples').
Proof.
  intros Hperm. rewrite !accuracy_of_samples.
  rewrite (forallb_Permutation has_class _ _ Hperm),
          (hits_Permutation _ _ Hperm), (Permutation_length Hperm).
  reflexivity.
Qed.

Lemma accuracy_ignores_sample_order_witness :
  accuracy [[2; 1]; [0; 3]; [5; 4]]%Q [0; 0; 0]
  = accuracy [[5; 4]; [2; 1]; [0; 3]]%Q [0; 0; 0].
Proof.
  apply (accuracy_ignores_sample_order
           [([2; 1]%Q, 0); ([0; 3]%Q, 0); ([5; 4]%Q, 0)]
           [([5; 4]%Q, 0); ([2; 1]%Q, 0); ([0; 3]%Q, 0)]).
  apply Permutation_sym.
  apply (Permutation_cons_app [([2; 1]%Q, 0); ([0; 3]%Q, 0)] []).
  reflexivity.
Defined.

End StepsMore.

(** ** Grouping on a constructed classifier *)

Module ScriptedGrouping.
Import Tree TreeFacts Classifier OptimizerFacts ConstructionFacts GroupingMore.

(** No module of a scripted tree is an instance of a normalization class. *)
Lemma script_no_norm m : Forall (fun m' => is_norm m' = false) (modules (script m)).
Proof.
  induction m as [b ps cs IH] using Module_forall_ind. simpl.
  constructor; [reflexivity|].
  induction IH as [|c cs Hc _ IHcs]; simpl; [constructor|].
  apply Forall_app. split; [exact Hc | exact IHcs].
Qed.

(** Scripting keeps the tensors. *)
Lemma parameters_script m : parameters (script m) = parameters m.
Proof.
  induction m as [b ps cs IH] using Module_forall_ind. simpl. f_equal.
  induction IH as [|c cs Hc _ IHcs]; simpl; [reflexivity|].
  now rewrite Hc, IHcs.
Qed.

(** On the modules of a constructed classifier [isinstance(module,
    norm_classes)] is never true, so that the normalization list of the
    grouping pass is empty whatever the layers of the backbone are. *)
Lemma constructed_has_no_norm_module
    (backbones : gmap string hparams.Backbone) (Linear : Z -> Z -> Module)
    (mixer_modules : RandomCutMixMixUp -> Module)
    (args : hparams.t) (self : ImageClassifier) :
  __init__ backbones Linear args = inr self ->
  (forall m, In m (modules (as_module mixer_modules self)) -> is_norm m = false)
  /\ norm_params (as_module mixer_modules self) = [].
Proof.
  intros H. apply init_shape in H.
  destruct H as (bb & x & ts & _ & _ & _ & _ & ->).
  match goal with |- ?A /\ _ => assert (Hall : A) end.
  { apply List.Forall_forall. unfold as_module.
    cbn [modules backbone classifier train_transforms mixup_cutmix].
    constructor; [reflexivity|].
    rewrite flat_map_app. cbn [flat_map]. rewrite !app_nil_r.
    repeat (apply Forall_app; split); try apply script_no_norm.
    destruct (make_mixup_cutmix _ _ _); cbn [flat_map];
      [rewrite app_nil_r; apply script_no_norm | constructor]. }
  split; [exact Hall|].
  rewrite norm_params_eq.
  apply (parts_without_norm_leaf _ (fun m Hm _ => Hall m Hm)).
Qed.

(** C4, at the default configuration over a backbone with a batch
    normalization leaf. The backbone object has a leaf of a normalization
    class that holds two gradient-tracking tensors; the classifier is
    constructed with [norm_weight_decay] 0; its modules are scripted, so the
    normalization list of the grouping pass is empty, and the optimizer is
    handed one group, with the coefficient [weight_decay], in which the two
    tensors of the leaf are. *)
Theorem normalization_group_empty_after_scripting :
  In Examples.bn (modules (hparams.body Examples.resnet18))
  /\ is_leaf Examples.bn = true
  /\ is_norm Examples.bn = true
  /\ trainable (_parameters Examples.bn) = [mkParam 1 true; mkParam 2 true]
  /\ __init__ Examples.registry Examples.linear Examples.args
     = inr (Examples.built Examples.args)
  /\ hparams.norm_weight_decay (hparams_ (Examples.built Examples.args))
     = Some 0%Q
  /\ norm_params (as_module Examples.mixer_modules (Examples.built Examples.args))
     = []
  /\ optimizer_parameters Examples.mixer_modules (Examples.built Examples.args)
     = Groups
         [mkGroup [mkParam 5 true; mkParam 1 true; mkParam 2 true;
                   mkParam 3 true; mkParam 100 true; mkParam 101 true]
            (2 # 100000)%Q].
Proof.
  split; [simpl; auto|].
  do 5 (split; [reflexivity|]).
  split; [|reflexivity].
  apply (proj2 (constructed_has_no_norm_module Examples.registry Examples.linear
                  Examples.mixer_modules Examples.args
                  (Examples.built Examples.args) eq_refl)).
Qed.

End ScriptedGrouping.
